(** * ML Interpreter (app.py): a shallow embedding of the data pipeline

    The application glues pandas, scikit-learn, LightGBM, XGBoost, eli5 and
    SHAP together.  The functions of [app.py] are embedded below, each next to
    a small executable model of the library calls it makes.  Python exceptions
    are values of [exn]; a computation that can raise returns a [result]. *)

From stdpp Require Import base option list strings pretty gmap sorting.
From Stdlib Require Import QArith Qabs Qround Lia Lqa.

Open Scope Z_scope.

(** ** Exceptions and Python indexing *)

Inductive exn : Set :=
| KeyError
| ValueError
| IndexError
| AttributeError
| EstimatorError.

Inductive result (A : Type) : Type :=
| Ok (a : A)
| Raise (e : exn).
Arguments Ok {A} a.
Arguments Raise {A} e.

#[global] Instance result_ret : MRet result := λ A a, Ok a.
#[global] Instance result_bind : MBind result := λ A B f m,
  match m with
  | Ok a => f a
  | Raise e => Raise e
  end.

Definition raised {A} (m : result A) : Prop :=
  match m with
  | Ok _ => False
  | Raise _ => True
  end.

Definition of_option {A} (e : exn) (o : option A) : result A :=
  match o with
  | Some a => Ok a
  | None => Raise e
  end.

(** [l[i]] on a Python sequence: negative indices count from the end,
    anything outside [-len, len) raises IndexError. *)
Definition py_getitem {A} (l : list A) (i : Z) : result A :=
  let n := Z.of_nat (length l) in
  if decide (0 ≤ i < n) then of_option IndexError (l !! Z.to_nat i)
  else if decide (- n ≤ i < 0) then of_option IndexError (l !! Z.to_nat (n + i))
  else Raise IndexError.

(** ** Tables (pandas) *)

(** A cell is a missing value, a number or a string.  The encoder only
    copies and compares cells, so numbers are kept as integers. *)
Inductive cell : Set :=
| NaN
| Num (z : Z)
| Str (s : string).

#[global] Instance cell_eq_dec : EqDecision cell.
Proof. solve_decision. Defined.

Definition cell_to_sum (c : cell) : unit + (Z + string) :=
  match c with
  | NaN => inl ()
  | Num z => inr (inl z)
  | Str s => inr (inr s)
  end.

Definition cell_of_sum (x : unit + (Z + string)) : cell :=
  match x with
  | inl _ => NaN
  | inr (inl z) => Num z
  | inr (inr s) => Str s
  end.

#[global] Instance cell_countable : Countable cell.
Proof.
  apply (inj_countable' cell_to_sum cell_of_sum).
  by intros [].
Defined.

Inductive dtype : Set :=
| Int64
| Float64
| UInt8
| Object.

#[global] Instance dtype_eq_dec : EqDecision dtype.
Proof. solve_decision. Defined.

Record Series : Set := mkSeries {
  s_dtype : dtype;
  s_values : list cell
}.

#[global] Instance Series_eq_dec : EqDecision Series.
Proof. solve_decision. Defined.

(** A DataFrame: the row labels and the named columns, in column order. *)
Record DataFrame : Set := mkFrame {
  index : list nat;
  columns : list (string * Series)
}.

#[global] Instance DataFrame_eq_dec : EqDecision DataFrame.
Proof. solve_decision. Defined.

(** [df.shape[0]] *)
Definition shape0 (df : DataFrame) : nat := length (index df).

(** [df.columns] *)
Definition column_names (df : DataFrame) : list string := (columns df).*1.

(** Every column holds one cell per row label and names are not repeated. *)
Definition wf_frame (df : DataFrame) : Prop :=
  Forall (λ c, length (s_values c.2) = shape0 df) (columns df) ∧
  NoDup (column_names df).

(** [df[name]] where a Series is wanted: the column that carries the label.
    No such column is a KeyError; a label carried by several columns selects
    a sub-table, which has none of the Series methods the source goes on to
    call ([unique]): AttributeError. *)
Definition getitem (df : DataFrame) (name : string) : result Series :=
  match filter (λ c, c.1 = name) (columns df) with
  | [] => Raise KeyError
  | [c] => Ok c.2
  | _ => Raise AttributeError
  end.

(** [df.drop(name, axis=1)]: KeyError when no column carries the label. *)
Definition drop_column (df : DataFrame) (name : string) : result DataFrame :=
  if decide (name ∈ column_names df)
  then Ok (mkFrame (index df)
             (filter (λ c, c.1 ≠ name) (columns df)))
  else Raise KeyError.

(** [s.astype('object')] *)
Definition astype_object (s : Series) : Series := mkSeries Object (s_values s).

(** [df[name] = df[name].astype('object')] for a label of the table: the
    column carrying the label (each of them, when the label is repeated and
    [df[name]] is a sub-table) is replaced in place by its conversion; the
    position of the column and the rest of the table stay as they are. *)
Definition setitem_astype_object (df : DataFrame) (name : string) : DataFrame :=
  mkFrame (index df)
    ((λ c, if decide (c.1 = name) then (c.1, astype_object c.2) else c)
     <$> columns df).

(** [s.unique()]: distinct values in order of first appearance; a missing
    value is a value like any other and is listed once. *)
Fixpoint unique_loop (uniques : list cell) (l : list cell) : list cell :=
  match l with
  | [] => uniques
  | x :: l' =>
      unique_loop (if decide (x ∈ uniques) then uniques else uniques ++ [x]) l'
  end.

Definition unique (s : Series) : list cell := unique_loop [] (s_values s).

(** Position of a value in the table of uniques. *)
Definition position_of (x : cell) (uniques : list cell) : option nat :=
  fst <$> list_find (λ u, u = x) uniques.

(** [pd.factorize(s)]: integer codes in order of first appearance together
    with the uniques; a missing value gets the sentinel code -1 and is not a
    unique. *)
Fixpoint factorize_loop (uniques : list cell) (l : list cell)
  : list Z * list cell :=
  match l with
  | [] => ([], uniques)
  | NaN :: l' =>
      let '(codes, u) := factorize_loop uniques l' in (-1 :: codes, u)
  | x :: l' =>
      match position_of x uniques with
      | Some i =>
          let '(codes, u) := factorize_loop uniques l' in
          (Z.of_nat i :: codes, u)
      | None =>
          let '(codes, u) := factorize_loop (uniques ++ [x]) l' in
          (Z.of_nat (length uniques) :: codes, u)
      end
  end.

Definition factorize (s : Series) : list Z * list cell :=
  factorize_loop [] (s_values s).

(** Order used for the levels of a categorical: numbers before strings,
    numbers by value, strings lexicographically. *)
Definition cell_leb (a b : cell) : bool :=
  match a, b with
  | NaN, _ => true
  | _, NaN => false
  | Num x, Num y => bool_decide (x ≤ y)
  | Num _, Str _ => true
  | Str _, Num _ => false
  | Str s, Str t => String.leb s t
  end.

Fixpoint insert_level (x : cell) (l : list cell) : list cell :=
  match l with
  | [] => [x]
  | y :: l' => if cell_leb x y then x :: l else y :: insert_level x l'
  end.

Definition sort_levels (l : list cell) : list cell :=
  foldr insert_level [] l.

(** [str(v)] for a level or a label.  Numbers are integers throughout this
    model and print as such; a float, which Python prints with its decimal
    point, has no counterpart here. *)
Definition cell_str (c : cell) : string :=
  match c with
  | NaN => "nan"
  | Num z => pretty z
  | Str s => s
  end.

(** Levels of a column to expand: sorted distinct non-missing values. *)
Definition levels (s : Series) : list cell :=
  sort_levels (filter (λ c, c ≠ NaN) (unique s)).

(** Indicator columns [name_level] of one object column; a missing value
    gets 0 in every one of them. *)
Definition dummies_of (name : string) (s : Series) : list (string * Series) :=
  (λ v, (name +:+ "_" +:+ cell_str v,
         mkSeries UInt8 ((λ c, if decide (c = v) then Num 1 else Num 0)
                           <$> s_values s)))
  <$> levels s.

Definition is_object (c : string * Series) : bool :=
  bool_decide (s_dtype c.2 = Object).

(** The columns that [get_dummies] puts side by side: the columns that are
    not of object dtype as they are, then the indicator columns of each
    object column. *)
Definition concat_dummies (df : DataFrame) : DataFrame :=
  mkFrame (index df)
    (filter (λ c, is_object c = false) (columns df) ++
     (filter (λ c, is_object c = true) (columns df)
        ≫= λ c, dummies_of c.1 c.2)).

(** [pd.get_dummies(df)]: object columns are one-hot expanded, the other
    columns are kept and come first.  The pieces are put together with
    [pd.concat], which refuses an empty list of pieces: a table without any
    column is a ValueError. *)
Definition get_dummies (df : DataFrame) : result DataFrame :=
  if decide (columns df = []) then Raise ValueError
  else Ok (concat_dummies df).

(** [df.fillna(0)] *)
Definition fillna0 (df : DataFrame) : DataFrame :=
  mkFrame (index df)
    ((λ c, (c.1, mkSeries (s_dtype c.2)
                   ((λ v, if decide (v = NaN) then Num 0 else v)
                      <$> s_values c.2)))
     <$> columns df).

(** *** [encode_data]

    The function assigns to [data[targetcol]], so the caller's table is part
    of what it produces: the second component is the table afterwards.  The
    first statement raises before anything is assigned: KeyError when no
    column carries the label, ValueError when no other column is left.  With
    a label carried by several columns the assignment goes through and the
    next statement raises. *)
Definition encoded : Set :=
  (DataFrame * list Z * list string * list cell)%type.

Definition encode_data (data : DataFrame) (targetcol : string)
  : result encoded * DataFrame :=
  match dropped ← drop_column data targetcol; get_dummies dropped with
  | Raise e => (Raise e, data)
  | Ok dummies =>
      let X := fillna0 dummies in
      let features := column_names X in
      let data' := setitem_astype_object data targetcol in
      match getitem data' targetcol with
      | Raise e => (Raise e, data')
      | Ok target =>
          let target_labels := unique target in
          let y := (factorize target).1 in
          (Ok (X, y, features, target_labels), data')
      end
  end.

(** The table has a column to make features of: one that is not labelled
    [targetcol]. *)
Definition has_feature_column (data : DataFrame) (targetcol : string) : Prop :=
  Exists (λ c, c.1 ≠ targetcol) (columns data).

(** A code is -1 for a missing value and otherwise the position of the value
    among the uniques of [factorize]. *)
Definition decodes (uniques : list cell) (c : Z) (v : cell) : Prop :=
  if decide (v = NaN) then c = -1
  else 0 ≤ c ∧ uniques !! Z.to_nat c = Some v.

(** ** Splitting (scikit-learn's [train_test_split]) *)

(** [a[idxs]] / [df.iloc[idxs]] for a list of positions. *)
Definition take_at {A} (l : list A) (idxs : list nat) : result (list A) :=
  mapM (λ i, of_option IndexError (l !! i)) idxs.

Definition iloc_rows (df : DataFrame) (idxs : list nat) : result DataFrame :=
  idx ← take_at (index df) idxs;
  cols ← mapM (λ c : string * Series,
                 vs ← take_at (s_values c.2) idxs;
                 Ok (c.1, mkSeries (s_dtype c.2) vs)) (columns df);
  Ok (mkFrame idx cols).

(** Sizes of the two parts for [train_size=0.80] and no [test_size]:
    [floor(0.8 * n)] rows to train on and the rest to test on; an empty
    training part is refused. *)
Definition validate_shuffle_split (n_samples : nat) : result (nat * nat) :=
  let n_train := Z.to_nat ((Z.of_nat n_samples * 4) `div` 5) in
  let n_test := (n_samples - n_train)%nat in
  if decide (n_train = 0%nat) then Raise ValueError else Ok (n_train, n_test).

Section Splitter.

(** [permutation n] is the shuffle of [0 .. n-1] that the generator seeded
    with [random_state=0] produces. *)
Variable permutation : nat → list nat.

Definition train_test_split (X : DataFrame) (y : list Z)
  : result (DataFrame * DataFrame * list Z * list Z) :=
  if decide (shape0 X = length y) then
    '(n_train, n_test) ← validate_shuffle_split (shape0 X);
    let shuffled := permutation (shape0 X) in
    let ind_test := take n_test shuffled in
    let ind_train := take n_train (drop n_test shuffled) in
    X_train ← iloc_rows X ind_train;
    X_test ← iloc_rows X ind_test;
    y_train ← take_at y ind_train;
    y_test ← take_at y ind_test;
    Ok (X_train, X_test, y_train, y_test)
  else Raise ValueError.

(** *** [splitdata] *)
Definition splitdata (X : DataFrame) (y : list Z)
  : result (DataFrame * DataFrame * list Z * list Z) :=
  train_test_split X y.

End Splitter.

(** ** Misclassification filter *)

(** [a != b] entry by entry. *)
Definition elementwise_ne (a b : list Z) : list bool :=
  zip_with (λ x y, bool_decide (x ≠ y)) a b.

(** [a != b] on two integer arrays, with numpy's broadcasting of an array of
    length one. *)
Definition ne_mask (a b : list Z) : result (list bool) :=
  if decide (length a = length b)
  then Ok (elementwise_ne a b)
  else match a, b with
       | [x], _ => Ok ((λ y, bool_decide (x ≠ y)) <$> b)
       | _, [y] => Ok ((λ x, bool_decide (x ≠ y)) <$> a)
       | _, _ => Raise ValueError
       end.

Definition select_by {A} (mask : list bool) (l : list A) : list A :=
  snd <$> filter (λ p, p.1 = true) (zip mask l).

(** [a[mask]] on an array: the mask must be as long as the array. *)
Definition array_mask {A} (l : list A) (mask : list bool) : result (list A) :=
  if decide (length mask = length l) then Ok (select_by mask l)
  else Raise IndexError.

(** [df[mask]]: rows whose mask entry is true, labels and column schema kept. *)
Definition frame_mask (df : DataFrame) (mask : list bool) : result DataFrame :=
  if decide (length mask = shape0 df)
  then Ok (mkFrame (select_by mask (index df))
             ((λ c, (c.1, mkSeries (s_dtype c.2) (select_by mask (s_values c.2))))
              <$> columns df))
  else Raise ValueError.

(** *** [filter_misclassified] *)
Definition filter_misclassified (X_test : DataFrame) (y_test pred : list Z)
  : result (DataFrame * list Z * list Z) :=
  idx_misclassified ← ne_mask pred y_test;
  X_test_misclassified ← frame_mask X_test idx_misclassified;
  y_test_misclassified ← array_mask y_test idx_misclassified;
  pred_misclassified ← array_mask pred idx_misclassified;
  Ok (X_test_misclassified, y_test_misclassified, pred_misclassified).

(** The schema of a table: column names with their dtypes. *)
Definition schema (df : DataFrame) : list (string * dtype) :=
  (λ c, (c.1, s_dtype c.2)) <$> columns df.

(** Row [i] of a table, as the cells of its columns. *)
Definition row_at (df : DataFrame) (i : nat) : list (option cell) :=
  (λ c, s_values c.2 !! i) <$> columns df.

(** Positions where prediction and truth differ, in increasing order. *)
Definition misclassified_positions (y_test pred : list Z) : list nat :=
  filter (λ i, pred !! i ≠ y_test !! i) (seq 0 (length y_test)).

(** ** Model adapters *)

(** The three choices of the model select box. *)
Inductive model_dim : Set :=
| lightGBM
| XGBoost
| randomforest.

Record RandomForestClassifier : Set := {
  n_estimators : Z;
  rf_random_state : Z
}.

Record LGBMClassifier : Set := {
  class_weight : option string;
  objective : string;
  n_jobs : Z;
  verbose : Z
}.

Record xgb_params : Set := {
  max_depth : Z;
  silent : Z;
  random_state : Z;
  num_class : nat
}.

(** XGBoost's own matrix type: the data and, for training, the labels. *)
Record DMatrix : Set := {
  dm_data : DataFrame;
  dm_label : option (list Z)
}.

Inductive classifier : Set :=
| SkRandomForest (c : RandomForestClassifier)
| SkLGBM (c : LGBMClassifier).

(** The estimator built for ['lightGBM'] from the target labels. *)
Definition lgbm_classifier (target_labels : list cell) : LGBMClassifier :=
  if decide (2 < length target_labels)%nat
  then {| class_weight := Some "balanced"; objective := "multiclass";
          n_jobs := -1; verbose := -1 |}
  else {| class_weight := None; objective := "binary";
          n_jobs := -1; verbose := -1 |}.

Section Adapters.

(** The learning libraries: a fitted model is opaque, fitting and predicting
    may raise.  Predictions are class codes and are kept as integers, so that
    [int(pred[i])] in the source is [pred[i]] here; predictions that are not
    whole numbers are outside this model. *)
Variable Booster : Type.
Variable fit : classifier → DataFrame → list Z → result Booster.
Variable xgb_train : xgb_params → DMatrix → result Booster.
Variable predict : Booster → DataFrame + DMatrix → result (list Z).

(** The "apply model" block of [main]. *)
Definition train (dim : model_dim) (target_labels : list cell)
    (X_train : DataFrame) (y_train : list Z) : result Booster :=
  match dim with
  | randomforest =>
      fit (SkRandomForest {| n_estimators := 500; rf_random_state := 0 |})
        X_train y_train
  | lightGBM => fit (SkLGBM (lgbm_classifier target_labels)) X_train y_train
  | XGBoost =>
      let params := {| max_depth := 5; silent := 1; random_state := 2;
                       num_class := length target_labels |} in
      let dmatrix := {| dm_data := X_train; dm_label := Some y_train |} in
      xgb_train params dmatrix
  end.

(** *** [make_pred] *)
Definition make_pred (dim : model_dim) (X_test : DataFrame) (clf : Booster)
  : result (list Z) :=
  match dim with
  | XGBoost => predict clf (inr {| dm_data := X_test; dm_label := None |})
  | _ => predict clf (inl X_test)
  end.

(** Training followed by prediction, as [main] sequences them: the model is
    bound only once training has returned. *)
Definition train_and_predict (dim : model_dim) (target_labels : list cell)
    (X_train X_test : DataFrame) (y_train : list Z)
  : result (Booster * list Z) :=
  clf ← train dim target_labels X_train y_train;
  pred ← make_pred dim X_test clf;
  Ok (clf, pred).

End Adapters.

(** Number of distinct classes in a label vector. *)
Definition n_classes (y : list Z) : nat := size (list_to_set y : gset Z).

(** ** Explanations *)

#[global] Instance Qle_dec : RelDecision Qle.
Proof. intros x y. unfold Qle. apply _. Defined.

#[global] Instance Qlt_dec : RelDecision Qlt.
Proof. intros x y. unfold Qlt. apply _. Defined.

#[global] Instance Qeq_decision : RelDecision Qeq.
Proof. intros x y. unfold Qeq. apply _. Defined.

(** Rounding to the nearest integer, ties to the even one (numpy). *)
Definition round_half_even (q : Q) : Z :=
  let f := Qfloor q in
  match (q - inject_Z f ?= 1 # 2)%Q with
  | Lt => f
  | Gt => f + 1
  | Eq => if Z.even f then f else f + 1
  end.

(** Scores are doubles.  A double is kept as the rational number it is, and
    [binary64 q] is the double nearest to [q], ties to the even mantissa: the
    rounding that ends every floating-point operation (overflow and the sign
    of zero apart).  [Qexponent q] is the binary exponent of a positive [q]. *)
Definition Qexponent (q : Q) : Z :=
  let k := Z.log2 (Qnum q) - Z.log2 (Zpos (Qden q)) in
  if decide (2 ^ k <= q)%Q then k else k - 1.

Definition binary64 (q : Q) : Q :=
  if decide (q == 0)%Q then 0%Q
  else
    let e := Z.max (Qexponent (Qabs q)) (-1022) in
    let ulp := (2 ^ (e - 52))%Q in
    (inject_Z (round_half_even (q / ulp)) * ulp)%Q.

(** [np.round(x, decimals)] on a double: [rint(x * 10**decimals) / 10**decimals],
    each operation in double precision. *)
Definition np_round (decimals : Z) (x : Q) : Q :=
  let f := inject_Z (10 ^ decimals) in
  binary64 (inject_Z (round_half_even (binary64 (x * f))) / f).

(** [round(x, 2)] *)
Definition round2 (q : Q) : Q := np_round 2 q.

Record importance_row : Set := {
  feature : string;
  weight : Q;
  std : Q
}.

(** [df.round(2)] on the table of weights. *)
Definition round_row (r : importance_row) : importance_row :=
  {| feature := feature r; weight := round2 (weight r); std := round2 (std r) |}.

Definition by_weight_desc (a b : importance_row) : Prop :=
  (weight b <= weight a)%Q.

#[global] Instance by_weight_desc_dec : RelDecision by_weight_desc.
Proof. intros a b. unfold by_weight_desc. apply _. Defined.

Definition by_score_desc (a b : string * Q) : Prop := (b.2 <= a.2)%Q.

#[global] Instance by_score_desc_dec : RelDecision by_score_desc.
Proof. intros a b. unfold by_score_desc. apply _. Defined.

(** [eli5.explain_weights_df(perm, feature_names=..., top=top)]: one row per
    position that the library's [argsort_k_largest] picks among the mean
    importances, in the order it lists them, with the name, the mean and the
    deviation found at that position (numpy indexing). *)
Definition explain_weights_df (argsort_k_largest : list Q → nat → list nat)
    (importances : list (Q * Q)) (feature_names : list string) (top : nat)
  : result (list importance_row) :=
  let indices := argsort_k_largest importances.*1 top in
  mapM (λ j, name ← of_option IndexError (feature_names !! j);
             ws ← of_option IndexError (importances !! j);
             Ok {| feature := name; weight := ws.1; std := ws.2 |})
    indices.

(** A tree explainer: a base value per class, and for a table the
    contribution matrices, one per class, rows by features. *)
Record TreeExplainer : Type := {
  expected_value : list Q;
  shap_values : DataFrame → list (list (list Q))
}.

Definition Qsum (l : list Q) : Q := foldr Qplus 0%Q l.

(** Mean absolute contribution of feature [j] in one class's matrix. *)
Definition mean_abs (m : list (list Q)) (j : nat) : Q :=
  (Qsum ((λ row, Qabs (default 0%Q (row !! j))) <$> m)
   / inject_Z (Z.of_nat (length m)))%Q.

(** [shap.summary_plot(values, X, plot_type="bar", max_display=k)]: one bar
    per feature, as long as its mean absolute contribution summed over the
    classes, the [k] longest bars from the top down. *)
Definition summary_plot_bar (values : list (list (list Q)))
    (feature_names : list string) (max_display : nat) : list (string * Q) :=
  let scores := imap (λ j name, (name, Qsum ((λ m, mean_abs m j) <$> values)))
                  feature_names in
  take max_display (merge_sort by_score_desc scores).

(** What the functions hand to the page. *)
Inductive widget : Type :=
| StText (s : string)
| StInfo (s : string)
| StMarkdown (html : string)
| AltBarChart (data bars : list importance_row)
| SummaryPlot (bars : list (string * Q))
| ForcePlot (base_value : Q) (contributions : list Q)
    (features : list (string * cell)).

(** [df.iloc[i, :]] *)
Definition iloc_row (df : DataFrame) (i : Z) : result (list (string * cell)) :=
  _ ← py_getitem (index df) i;
  mapM (λ c : string * Series, v ← py_getitem (s_values c.2) i; Ok (c.1, v))
    (columns df).

(** [s.translate(str.maketrans('', '', '\n'))] *)
Fixpoint remove_newlines (s : string) : string :=
  match s with
  | EmptyString => EmptyString
  | String c s' =>
      if decide (c = Ascii.ascii_of_nat 10) then remove_newlines s'
      else String c (remove_newlines s')
  end.

(** The help texts, as the triple-quoted literals of the source hold them. *)
Definition info_local_eli5 : string :=
  "
        **What's included**  
        Input data is split 80/20 into training and testing. Model is trained on the training and applied on the testing.
        Each of the individual testing datapoint can be inspected by index.
        **To Read the table**  
        The table describes how an individual datapoint is classified.
        Contribution refers to the extent & direction of influence a feature has on the outcome
        Value refers to the value of the feature in the dataset
        ".

Definition info_local_shap : string :=
  "
        This chart illustrates how each feature pushs the prediction outcome from base value to the model output.
        Features pushing the prediction higher are shown in red arrows towards the right, and those pushing the prediction lower are in blue arrows towards to left.
        ".

Inductive framework : Set :=
| SHAP
| ELI5.

Section Explainers.

(** The explanation libraries, over the same opaque fitted model.
    [permutation_importance clf n_iter seed X y] gives a mean importance and
    its deviation per column of [X]; [argsort_k_largest x k] is eli5's choice
    of the positions of the [k] largest entries of [x], largest first;
    [tree_explainer] is [shap.TreeExplainer];
    [show_prediction clf doc target_names top targets] is eli5's rendering of
    one prediction. *)
Variable Booster : Type.
Variable argsort_k_largest : list Q → nat → list nat.
Variable permutation_importance :
  Booster → nat → Z → DataFrame → list Z → result (list (Q * Q)).
Variable tree_explainer : Booster → result TreeExplainer.
Variable show_prediction :
  Booster → list (string * cell) → option (list cell) → nat →
  option (list bool) → result string.

(** *** [show_global_interpretation_eli5] *)
Definition show_global_interpretation_eli5 (X_train : DataFrame)
    (y_train : list Z) (features : list string) (clf : Booster)
    (dim : model_dim) : result (list widget) :=
  perm ← permutation_importance clf 2%nat 1 X_train y_train;
  df_global_explain ←
    explain_weights_df argsort_k_largest perm (column_names X_train) 5;
  let df_global_explain := round_row <$> df_global_explain in
  let bar := AltBarChart df_global_explain
               (merge_sort by_weight_desc df_global_explain) in
  Ok [bar].

(** *** [show_global_interpretation_shap] *)
Definition show_global_interpretation_shap (X_train : DataFrame)
    (clf : Booster) : result (list widget) :=
  explainer ← tree_explainer clf;
  let values := shap_values explainer X_train in
  Ok [SummaryPlot (summary_plot_bar values (column_names X_train) 5)].

(** *** [show_local_interpretation_eli5] *)
Definition show_local_interpretation_eli5 (info_local : bool)
    (dataset : DataFrame) (clf : Booster) (pred : list Z)
    (target_labels : list cell) (features : list string) (dim : model_dim)
    (slider_idx : Z) : result (list widget) :=
  let info := if info_local then [StInfo info_local_eli5] else [] in
  doc ← iloc_row dataset slider_idx;
  local_interpretation ←
    match dim with
    | XGBoost => show_prediction clf doc None 5 None
    | _ => show_prediction clf doc (Some target_labels) 5 (Some [true])
    end;
  Ok (info ++ [StMarkdown (remove_newlines local_interpretation)]).

(** *** [show_local_interpretation_shap] *)
Definition show_local_interpretation_shap (info_local : bool) (clf : Booster)
    (X_test : DataFrame) (pred : list Z) (slider_idx : Z)
  : result (list widget) :=
  let info := if info_local then [StInfo info_local_shap] else [] in
  explainer ← tree_explainer clf;
  let values := shap_values explainer X_test in
  pred_i ← py_getitem pred slider_idx;
  base ← py_getitem (expected_value explainer) pred_i;
  of_class ← py_getitem values pred_i;
  contributions ← py_getitem of_class slider_idx;
  row ← iloc_row X_test slider_idx;
  Ok (info ++ [ForcePlot base contributions row]).

(** *** [show_local_interpretation]

    [slider_idx] is the value of the slider over [0 .. n_data-1] and
    [info_local] tells whether the help button was pressed. *)
Definition show_local_interpretation (info_local : bool) (slider_idx : Z)
    (X_test : DataFrame) (y_test : list Z) (clf : Booster) (pred : list Z)
    (target_labels : list cell) (features : list string) (dim : model_dim)
    (dim_framework : framework) : result (list widget) :=
  pred_i ← py_getitem pred slider_idx;
  predicted ← py_getitem target_labels pred_i;
  y_i ← py_getitem y_test slider_idx;
  actual ← py_getitem target_labels y_i;
  let caption := StText ("Prediction: " +:+ cell_str predicted +:+
                         " | Actual label: " +:+ cell_str actual) in
  shown ← match dim_framework with
          | SHAP => show_local_interpretation_shap info_local clf X_test pred
                      slider_idx
          | ELI5 => show_local_interpretation_eli5 info_local X_test clf pred
                      target_labels features dim slider_idx
          end;
  Ok (caption :: shown).

(** The "Local Interpretation" block of [main]. *)
Definition main_local (filter_checked info_local : bool) (slider_idx : Z)
    (X_test : DataFrame) (y_test : list Z) (clf : Booster) (pred : list Z)
    (target_labels : list cell) (features : list string) (dim : model_dim)
    (dim_framework : framework) : result (list widget) :=
  if filter_checked then
    '(X_test, y_test, pred) ← filter_misclassified X_test y_test pred;
    if decide (shape0 X_test = 0%nat)
    then Ok [StText "No misclassification🎉"]
    else
      shown ← show_local_interpretation info_local slider_idx X_test y_test
                clf pred target_labels features dim dim_framework;
      Ok (StText (pretty (shape0 X_test) +:+ " misclassified total") :: shown)
  else
    show_local_interpretation info_local slider_idx X_test y_test clf pred
      target_labels features dim dim_framework.

(** *** What a call leaves behind

    A call of one of the operations of the pipeline, with the arguments it is
    given.  Seen from the caller, a call leaves behind the tables and label
    vectors that were passed to it, and what it has put on the page.
    [encode_data] is the one function that assigns to an argument (its
    table); the explanation functions are the ones that write to the page
    ([st.write], [st.pyplot], [st.text], ...), and they return nothing. *)
Inductive call : Type :=
| Encode (data : DataFrame) (targetcol : string)
| Split (X : DataFrame) (y : list Z)
| Train (dim : model_dim) (target_labels : list cell) (X_train : DataFrame)
    (y_train : list Z)
| Predict (dim : model_dim) (X_test : DataFrame) (clf : Booster)
| Filter (X_test : DataFrame) (y_test pred : list Z)
| ExplainGlobal (dim_framework : framework) (X_train : DataFrame)
    (y_train : list Z) (features : list string) (clf : Booster)
    (dim : model_dim)
| ExplainLocal (info_local : bool) (slider_idx : Z) (X_test : DataFrame)
    (y_test : list Z) (clf : Booster) (pred : list Z)
    (target_labels : list cell) (features : list string) (dim : model_dim)
    (dim_framework : framework).

(** The tables and the label vectors passed to a call. *)
Definition given (c : call) : list DataFrame * list (list Z) :=
  match c with
  | Encode data _ => ([data], [])
  | Split X y => ([X], [y])
  | Train _ _ X_train y_train => ([X_train], [y_train])
  | Predict _ X_test _ => ([X_test], [])
  | Filter X_test y_test pred => ([X_test], [y_test; pred])
  | ExplainGlobal _ X_train y_train _ _ _ => ([X_train], [y_train])
  | ExplainLocal _ _ X_test y_test _ pred _ _ _ _ => ([X_test], [y_test; pred])
  end.

(** The same tables and vectors once the call is over.  Apart from line 52
    of [encode_data], no statement of these functions assigns to an argument
    or modifies one in place: indexing with a mask, [train_test_split] and
    [DMatrix(...)] build new objects, and the libraries are taken to leave
    what they are passed as it is. *)
Definition left_behind (c : call) : list DataFrame * list (list Z) :=
  match c with
  | Encode data targetcol => ([(encode_data data targetcol).2], [])
  | Split X y => ([X], [y])
  | Train _ _ X_train y_train => ([X_train], [y_train])
  | Predict _ X_test _ => ([X_test], [])
  | Filter X_test y_test pred => ([X_test], [y_test; pred])
  | ExplainGlobal _ X_train y_train _ _ _ => ([X_train], [y_train])
  | ExplainLocal _ _ X_test y_test _ pred _ _ _ _ => ([X_test], [y_test; pred])
  end.

(** What a call that returns has put on the page. *)
Definition written (c : call) : list widget :=
  let shown (m : result (list widget)) :=
    match m with Ok ws => ws | Raise _ => [] end in
  match c with
  | ExplainGlobal SHAP X_train _ _ clf _ =>
      shown (show_global_interpretation_shap X_train clf)
  | ExplainGlobal ELI5 X_train y_train features clf dim =>
      shown (show_global_interpretation_eli5 X_train y_train features clf dim)
  | ExplainLocal info_local slider_idx X_test y_test clf pred target_labels
      features dim dim_framework =>
      shown (show_local_interpretation info_local slider_idx X_test y_test
               clf pred target_labels features dim dim_framework)
  | _ => []
  end.

End Explainers.

Arguments Encode {Booster} data targetcol.
Arguments Split {Booster} X y.
Arguments Train {Booster} dim target_labels X_train y_train.
Arguments Predict {Booster} dim X_test clf.
Arguments Filter {Booster} X_test y_test pred.
Arguments ExplainGlobal {Booster} dim_framework X_train y_train features clf
  dim.
Arguments ExplainLocal {Booster} info_local slider_idx X_test y_test clf pred
  target_labels features dim dim_framework.
Arguments given {Booster} c.
Arguments left_behind {Booster} c.

(** ** Choosing the target of an uploaded table *)

(** [df.columns[:-1].insert(0, df.columns[-1])] in [main]: the options of the
    target select box, the last column of the upload first. *)
Definition col_arranged (df : DataFrame) : result (list string) :=
  let names := column_names df in
  let front := take (length names - 1) names in
  last_name ← py_getitem names (-1);
  Ok (last_name :: front).

(** ** Performance metrics *)

(** Rows whose true class is [a] and whose predicted class is [b]. *)
Definition count_pairs (y_true y_pred : list Z) (a b : Z) : nat :=
  length (filter (λ p, p.1 = a ∧ p.2 = b) (zip y_true y_pred)).

(** [sklearn.metrics.confusion_matrix(y_true, y_pred, labels)]: one row per
    true label and one column per predicted label, in the order of [labels];
    vectors of different lengths, or labels none of which is a true class,
    are refused. *)
Definition confusion_matrix (y_true y_pred labels : list Z)
  : result (list (list nat)) :=
  if decide (length y_true = length y_pred) then
    if decide (Exists (λ l, l ∈ y_true) labels)
    then Ok ((λ a, (λ b, count_pairs y_true y_pred a b) <$> labels)
             <$> labels)
    else Raise ValueError
  else Raise ValueError.

(** [round(x, 1)] *)
Definition round1 (q : Q) : Q := np_round 1 q.

(** What [show_perf_metrics] puts in the sidebar. *)
Inductive sidebar_widget : Type :=
| SidebarDataframe (table : list (string * list Q))
| SidebarHeatmap (matrix : list (list nat)).

Section PerfMetrics.

(** [set_list y] is [list(set(y))], in the order the set is iterated;
    [classification_report] is scikit-learn's report as a table of numbers,
    one row per class or average. *)
Variable set_list : list Z → list Z.
Variable classification_report :
  list Z → list Z → result (list (string * list Q)).

(** *** [show_perf_metrics]

    The chart built in the last statement is not displayed. *)
Definition show_perf_metrics (y_test pred : list Z)
  : result (list sidebar_widget) :=
  report ← classification_report y_test pred;
  let shown := (λ row : string * list Q, (row.1, round1 <$> row.2))
               <$> report in
  conf_matrix ← confusion_matrix y_test pred (set_list y_test);
  Ok [SidebarDataframe shown; SidebarHeatmap conf_matrix].

End PerfMetrics.

(** Sum of the diagonal and of all the entries of a matrix of counts. *)
Definition trace (m : list (list nat)) : nat :=
  sum_list (imap (λ i row, default 0%nat (row !! i)) m).

Definition total (m : list (list nat)) : nat := sum_list (sum_list <$> m).

(** ** Sample data *)

(** A small table in the shape of the iris sample: a numeric column with a
    gap, a categorical column and a three-class target. *)
Definition sample_table : DataFrame :=
  mkFrame [0; 1; 2; 3]%nat
    [("width", mkSeries Float64 [Num 5; NaN; Num 7; Num 5]);
     ("colour", mkSeries Object [Str "red"; Str "blue"; NaN; Str "red"]);
     ("species", mkSeries Object [Str "b"; Str "a"; Str "b"; Str "c"])].

(** An uploaded table whose integer target column is complete. *)
Definition int_target_table : DataFrame :=
  mkFrame [0; 1; 2]%nat
    [("age", mkSeries Int64 [Num 31; Num 47; Num 25]);
     ("label", mkSeries Int64 [Num 1; Num 0; Num 1])].

(** An uploaded table with an empty cell in the target column. *)
Definition nan_target_table : DataFrame :=
  mkFrame [0; 1]%nat
    [("age", mkSeries Int64 [Num 31; Num 47]);
     ("label", mkSeries Object [NaN; Str "a"])].

(** An evaluation set of four rows, with labels and predictions that differ
    at positions 1 and 3. *)
Definition sample_X_test : DataFrame :=
  mkFrame [7; 2; 9; 4]%nat
    [("width", mkSeries Float64 [Num 5; Num 6; Num 7; Num 8]);
     ("colour_red", mkSeries UInt8 [Num 1; Num 0; Num 0; Num 1])].

Definition sample_y_test : list Z := [0; 1; 1; 0].
Definition sample_pred : list Z := [0; 0; 1; 1].

(** A shuffle to run the splitter with: the positions backwards. *)
Definition backwards (n : nat) : list nat := reverse (seq 0 n).

Definition five_rows : DataFrame :=
  mkFrame [0; 1; 2; 3; 4]%nat
    [("width", mkSeries Float64 [Num 5; Num 6; Num 7; Num 8; Num 9])].

(** Stand-ins for the learning and explanation libraries: a fitted model
    carries nothing, fitting always succeeds, and the explainer has two
    classes over the two features of [sample_X_test]. *)
Definition fit_accepting (c : classifier) (X : DataFrame) (y : list Z)
  : result unit := Ok ().

Definition xgb_train_accepting (p : xgb_params) (d : DMatrix) : result unit :=
  Ok ().

Definition predict_constant (clf : unit) (X : DataFrame + DMatrix)
  : result (list Z) := Ok sample_pred.

Definition sample_explainer : TreeExplainer :=
  {| expected_value := [1 # 2; 1 # 4]%Q;
     shap_values := λ _,
       [ [[1 # 8; 0]; [1 # 8; 0]; [-1 # 8; 0]; [1 # 8; 0]];
         [[3 # 10; 1 # 5]; [-1 # 10; 1 # 5]; [1 # 10; 0]; [1 # 2; 1 # 5]] ]%Q |}.

Definition sample_tree_explainer (clf : unit) : result TreeExplainer :=
  Ok sample_explainer.

Definition sample_permutation_importance (clf : unit) (n_iter : nat)
    (seed : Z) (X : DataFrame) (y : list Z) : result (list (Q * Q)) :=
  Ok [(1 # 8, 1 # 100); (-3 # 1000, 1 # 1000)]%Q.

Definition sample_show_prediction (clf : unit) (doc : list (string * cell))
    (target_names : option (list cell)) (top : nat)
    (targets : option (list bool)) : result string := Ok "<table></table>".

(** A table with a missing value in a categorical column and in the target. *)
Definition gaps_table : DataFrame :=
  mkFrame [0; 1; 2; 3]%nat
    [("size", mkSeries Float64 [Num 3; NaN; Num 4; Num 3]);
     ("shade", mkSeries Object [Str "dark"; NaN; Str "pale"; Str "dark"]);
     ("kind", mkSeries Object [Str "x"; NaN; Str "y"; Str "x"])].

(** One order in which [list(set(y))] can list the classes. *)
Definition set_elements (y : list Z) : list Z :=
  elements (list_to_set y : gset Z).

Definition sample_report (y_test pred : list Z)
  : result (list (string * list Q)) :=
  Ok [("0", [1 # 2; 1 # 2; 1 # 2; 2]%Q); ("1", [1 # 2; 1 # 2; 1 # 2; 2]%Q)].

(** An upload with a single column, and one in which a label is carried by
    two columns. *)
Definition target_only_table : DataFrame :=
  mkFrame [0; 1; 2]%nat [("label", mkSeries Int64 [Num 1; Num 0; Num 1])].

Definition twice_labelled_table : DataFrame :=
  mkFrame [0; 1]%nat
    [("age", mkSeries Int64 [Num 31; Num 47]);
     ("label", mkSeries Int64 [Num 1; Num 0]);
     ("label", mkSeries Object [Str "a"; Str "b"])].

(** One way to pick the positions of the [k] largest entries, largest
    first. *)
Definition by_entry_desc (a b : nat * Q) : Prop := (b.2 <= a.2)%Q.

#[global] Instance by_entry_desc_dec : RelDecision by_entry_desc.
Proof. intros a b. unfold by_entry_desc. apply _. Defined.

Definition sample_argsort_k_largest (x : list Q) (k : nat) : list nat :=
  take k (merge_sort by_entry_desc (imap pair x)).*1.

(** Importances among which one is negative: shuffling the second column
    improves the score of the model. *)
Definition harmful_permutation_importance (clf : unit) (n_iter : nat)
    (seed : Z) (X : DataFrame) (y : list Z) : result (list (Q * Q)) :=
  Ok [(1 # 8, 1 # 100); (-1 # 4, 1 # 50)]%Q.

(** An explainer library that cannot explain anything. *)
Definition failing_tree_explainer (clf : unit) : result TreeExplainer :=
  Raise EstimatorError.

(** * Properties *)

(** ** Generic facts about masks and positions *)

Lemma filter_fmap_comm {A B} (f : A → B) (P : B → Prop)
    `{!∀ x, Decision (P x)} (l : list A) :
  filter P (f <$> l) = f <$> filter (λ x, P (f x)) l.
Proof.
  induction l as [|a l IH]; [done|].
  rewrite fmap_cons, !filter_cons.
  destruct (decide (P (f a))); by rewrite IH.
Qed.

(** Positions of the true entries of a mask. *)
Lemma select_by_nil_l {A} (l : list A) : select_by [] l = [].
Proof. done. Qed.

Lemma select_by_cons {A} (b : bool) (mask : list bool) (x : A) (l : list A) :
  select_by (b :: mask) (x :: l) =
  if b then x :: select_by mask l else select_by mask l.
Proof.
  unfold select_by. simpl. rewrite filter_cons. simpl.
  destruct b; simpl.
  - destruct (decide (true = true)); done.
  - destruct (decide (false = true)); done.
Qed.

Lemma select_by_positions {A} (mask : list bool) (l : list A) :
  length mask = length l →
  Some <$> select_by mask l =
  (λ i, l !! i) <$> filter (λ i, mask !! i = Some true) (seq 0 (length l)).
Proof.
  revert l. induction mask as [|b mask IH]; intros [|x l] Hlen;
    simplify_eq/=; [done|].
  rewrite select_by_cons, filter_cons, <- fmap_S_seq, filter_fmap_comm.
  specialize (IH l Hlen). simpl.
  destruct b; simpl.
  - f_equal. change (list_fmap A (option A) Some (select_by mask l))
      with (Some <$> select_by mask l). rewrite IH.
    by rewrite <- (list_fmap_compose S).
  - rewrite IH. by rewrite <- (list_fmap_compose S).
Qed.

Lemma select_by_all_false {A} (mask : list bool) (l : list A) :
  Forall (λ b, b = false) mask → select_by mask l = [].
Proof.
  intros Hall. revert l. induction Hall as [|b mask -> _ IH]; intros [|x l];
    try done.
  rewrite select_by_cons. apply IH.
Qed.

Lemma select_by_all_true {A} (mask : list bool) (l : list A) :
  Forall (λ b, b = true) mask → length mask = length l →
  select_by mask l = l.
Proof.
  intros Hall. revert l. induction Hall as [|b mask -> _ IH]; intros [|x l] ?;
    simplify_eq/=; [done|].
  rewrite select_by_cons. f_equal. by apply IH.
Qed.

Lemma length_select_by {A B} (mask : list bool) (l : list A) (k : list B) :
  length mask = length l → length mask = length k →
  length (select_by mask l) = length (select_by mask k).
Proof.
  revert l k. induction mask as [|b mask IH]; intros [|x l] [|y k] ??;
    simplify_eq/=; [done|].
  rewrite !select_by_cons. destruct b; simpl; auto.
Qed.

Lemma select_by_zip_with {A B C} (f : A → B → C) mask (l : list A) (k : list B) :
  length l = length k →
  select_by mask (zip_with f l k) =
  zip_with f (select_by mask l) (select_by mask k).
Proof.
  revert l k. induction mask as [|b mask IH]; intros [|x l] [|y k] ?;
    simplify_eq/=; try done.
  rewrite !select_by_cons. destruct b; simpl; by rewrite IH.
Qed.

Lemma elementwise_ne_select (mask : list bool) (a b : list Z) :
  length a = length b →
  elementwise_ne (select_by mask a) (select_by mask b) =
  select_by mask (elementwise_ne a b).
Proof. intros Hlen. unfold elementwise_ne. by rewrite select_by_zip_with. Qed.

Lemma ne_mask_same_length (a b : list Z) :
  length a = length b →
  ne_mask a b = Ok (elementwise_ne a b).
Proof. intros H. unfold ne_mask. by rewrite decide_True. Qed.

Lemma ne_mask_lookup (a b : list Z) (i : nat) :
  length a = length b → (i < length b)%nat →
  elementwise_ne a b !! i = Some true ↔ a !! i ≠ b !! i.
Proof.
  intros Hlen Hi. unfold elementwise_ne. rewrite lookup_zip_with.
  destruct (lookup_lt_is_Some_2 a i) as [x Hx]; [lia|].
  destruct (lookup_lt_is_Some_2 b i) as [y Hy]; [lia|].
  rewrite Hx, Hy. simpl. split.
  - intros [= H%bool_decide_eq_true]. congruence.
  - intros H. f_equal. apply bool_decide_eq_true. congruence.
Qed.

Lemma filter_ext_in {A} (P1 P2 : A → Prop) `{!∀ x, Decision (P1 x)}
    `{!∀ x, Decision (P2 x)} (l : list A) :
  (∀ x, x ∈ l → P1 x ↔ P2 x) → filter P1 l = filter P2 l.
Proof.
  induction l as [|a l IH]; intros Hext; [done|].
  rewrite !filter_cons.
  assert (P1 a ↔ P2 a) by (apply Hext; left).
  rewrite IH by (intros; apply Hext; by right).
  destruct (decide (P1 a)), (decide (P2 a)); tauto.
Qed.

Lemma mask_positions (y_test pred : list Z) :
  length pred = length y_test →
  filter (λ i, elementwise_ne pred y_test !! i = Some true)
    (seq 0 (length y_test)) =
  misclassified_positions y_test pred.
Proof.
  intros Hlen. unfold misclassified_positions.
  apply filter_ext_in. intros i [_ Hi]%elem_of_seq.
  apply ne_mask_lookup; [done|lia].
Qed.

Lemma select_by_lookup {A} (mask : list bool) (l : list A) (k i : nat) :
  length mask = length l →
  filter (λ i, mask !! i = Some true) (seq 0 (length l)) !! k = Some i →
  select_by mask l !! k = l !! i.
Proof.
  intros Hlen Hk.
  pose proof (select_by_positions mask l Hlen) as Heq.
  apply (f_equal (λ xs, xs !! k)) in Heq.
  rewrite !list_lookup_fmap, Hk in Heq. simpl in Heq.
  destruct (select_by mask l !! k); by simplify_eq/=.
Qed.

Lemma select_by_self (mask : list bool) :
  Forall (λ b, b = true) (select_by mask mask).
Proof.
  induction mask as [|b mask IH]; [constructor|].
  rewrite select_by_cons. destruct b; [by constructor|done].
Qed.

Lemma length_select_by_positions {A} (mask : list bool) (l : list A) :
  length mask = length l →
  length (select_by mask l) =
  length (filter (λ i, mask !! i = Some true) (seq 0 (length l))).
Proof.
  intros Hlen. pose proof (select_by_positions mask l Hlen) as Heq.
  apply (f_equal length) in Heq. by rewrite !length_fmap in Heq.
Qed.

Lemma filter_misclassified_eq (X_test : DataFrame) (y_test pred : list Z) :
  length y_test = shape0 X_test → length pred = shape0 X_test →
  let mask := elementwise_ne pred y_test in
  filter_misclassified X_test y_test pred =
  Ok (mkFrame (select_by mask (index X_test))
        ((λ c, (c.1, mkSeries (s_dtype c.2) (select_by mask (s_values c.2))))
         <$> columns X_test),
      select_by mask y_test, select_by mask pred).
Proof.
  intros Hy Hpred mask.
  assert (length mask = shape0 X_test) as Hm.
  { unfold mask, elementwise_ne. rewrite length_zip_with. lia. }
  unfold filter_misclassified.
  rewrite ne_mask_same_length by lia. simpl. fold mask.
  unfold frame_mask, array_mask.
  rewrite !decide_True by lia. done.
Qed.

Section Filter.

Variables (X_test : DataFrame) (y_test pred : list Z).
Hypothesis Hy : length y_test = shape0 X_test.
Hypothesis Hpred : length pred = shape0 X_test.

Local Abbreviation mask := (elementwise_ne pred y_test).

Lemma length_mask : length mask = shape0 X_test.
Proof. unfold elementwise_ne. rewrite length_zip_with. lia. Qed.

Hypothesis Hcols :
  Forall (λ c, length (s_values c.2) = shape0 X_test) (columns X_test).

Lemma positions_mask :
  filter (λ i, mask !! i = Some true) (seq 0 (shape0 X_test)) =
  misclassified_positions y_test pred.
Proof. rewrite <- Hy. apply mask_positions. lia. Qed.

(** C3.  For an evaluation table whose columns are as long as its index, and
    label and prediction vectors of that length, [filter_misclassified]
    returns without raising, and returns exactly the rows at the positions
    where prediction and label differ, in their original order and under the
    same columns; labels and predictions are cut down to the same positions.
    When no position differs the result is the empty table over the same
    columns, with two empty vectors. *)
Theorem filter_misclassified_rows :
  ∃ Xm ym pm,
    filter_misclassified X_test y_test pred = Ok (Xm, ym, pm) ∧
    let pos := misclassified_positions y_test pred in
    schema Xm = schema X_test ∧
    Some <$> index Xm = (λ i, index X_test !! i) <$> pos ∧
    (∀ k i, pos !! k = Some i → row_at Xm k = row_at X_test i) ∧
    Some <$> ym = (λ i, y_test !! i) <$> pos ∧
    Some <$> pm = (λ i, pred !! i) <$> pos ∧
    (pos = [] →
     Xm = mkFrame [] ((λ c, (c.1, mkSeries (s_dtype c.2) [])) <$> columns X_test)
     ∧ ym = [] ∧ pm = []).
Proof.
  eexists _, _, _. split; [by apply filter_misclassified_eq|].
  pose proof length_mask as Hm. pose proof positions_mask as Hpos.
  unfold shape0 in *. simpl.
  assert (∀ {A} (l : list A), length l = length (index X_test) →
            Some <$> select_by mask l =
            (λ i, l !! i) <$> misclassified_positions y_test pred) as Hsel.
  { intros A l Hl. rewrite select_by_positions by lia. by rewrite Hl, Hpos. }
  assert (∀ {A} (l : list A), length l = length (index X_test) →
            misclassified_positions y_test pred = [] →
            select_by mask l = []) as Hnil.
  { intros A l Hl Hnone. apply length_zero_iff_nil.
    rewrite length_select_by_positions by lia. by rewrite Hl, Hpos, Hnone. }
  split_and!; auto.
  - unfold schema. simpl. by rewrite <- list_fmap_compose.
  - intros k i Hk. unfold row_at. simpl. rewrite <- list_fmap_compose.
    apply Forall_fmap_ext_1. eapply Forall_impl; [exact Hcols|].
    intros c Hc. cbv beta in Hc. simpl. apply (select_by_lookup mask); [congruence|].
    by rewrite Hc, Hpos.
  - intros Hnone. split_and!; auto. f_equal; [auto|].
    apply Forall_fmap_ext_1. eapply Forall_impl; [exact Hcols|].
    intros c Hc. cbv beta in Hc. simpl. do 2 f_equal. auto.
Qed.

(** C10.  Filtering is idempotent: on inputs of equal length the filter
    returns a triple, and filtering that triple again returns it unchanged. *)
Theorem filter_misclassified_idempotent :
  ∃ Xm ym pm,
    filter_misclassified X_test y_test pred = Ok (Xm, ym, pm) ∧
    filter_misclassified Xm ym pm = Ok (Xm, ym, pm).
Proof.
  eexists _, _, _. split; [by apply filter_misclassified_eq|].
  pose proof length_mask as Hm.
  assert (∀ {A B} (l : list A) (k : list B), length l = shape0 X_test →
            length k = shape0 X_test →
            length (select_by mask l) = length (select_by mask k)) as Hlen.
  { intros A B l k ??. apply length_select_by; lia. }
  rewrite filter_misclassified_eq; simpl.
  - rewrite elementwise_ne_select by lia.
    assert (∀ {A} (l : list A), length l = shape0 X_test →
              select_by (select_by mask mask) (select_by mask l)
              = select_by mask l) as Hsel.
    { intros A l Hl. apply select_by_all_true; [apply select_by_self|].
      apply Hlen; lia. }
    rewrite !Hsel by done. do 3 f_equal.
    rewrite <- list_fmap_compose. f_equal. apply Forall_fmap_ext_1.
    eapply Forall_impl; [exact Hcols|]. intros c Hc. cbv beta in Hc. simpl.
    by rewrite Hsel.
  - unfold shape0. simpl. apply Hlen; [lia|done].
  - unfold shape0. simpl. apply Hlen; [lia|done].
Qed.

End Filter.

(** ** The encoder *)

Lemma unique_loop_prefix (u l : list cell) : u `prefix_of` unique_loop u l.
Proof.
  revert u. induction l as [|x l IH]; intros u; simpl; [done|].
  case_decide; [apply IH|].
  etrans; [|apply IH]. by apply prefix_app_r.
Qed.

Lemma unique_loop_NoDup (u l : list cell) : NoDup u → NoDup (unique_loop u l).
Proof.
  revert u. induction l as [|x l IH]; intros u Hu; simpl; [done|].
  apply IH. case_decide; [done|].
  apply NoDup_app. split_and!; [done| |apply NoDup_singleton].
  intros y Hy ->%list_elem_of_singleton. done.
Qed.

Lemma unique_loop_elem_of (u l : list cell) (x : cell) :
  x ∈ unique_loop u l ↔ x ∈ u ∨ x ∈ l.
Proof.
  revert u. induction l as [|y l IH]; intros u; simpl.
  - rewrite elem_of_nil. tauto.
  - rewrite IH, elem_of_cons. case_decide.
    + split; [tauto|]. intros [?|[->|?]]; auto.
    + rewrite elem_of_app, list_elem_of_singleton. tauto.
Qed.

Lemma unique_distinct (s : Series) :
  length (unique s) = size (list_to_set (s_values s) : gset cell).
Proof.
  unfold unique.
  rewrite <- (size_list_to_set (C:=gset cell) (unique_loop [] (s_values s)))
    by (apply unique_loop_NoDup, NoDup_nil_2).
  f_equal. apply set_eq. intros x.
  rewrite !elem_of_list_to_set, unique_loop_elem_of, elem_of_nil. tauto.
Qed.

Lemma factorize_loop_length (u l : list cell) :
  length (factorize_loop u l).1 = length l.
Proof.
  revert u. induction l as [|x l IH]; intros u; [done|].
  destruct x as [|z|s]; simpl.
  - specialize (IH u). destruct (factorize_loop u l). simpl in *. lia.
  - destruct (position_of (Num z) u);
      [specialize (IH u)|specialize (IH (u ++ [Num z]))];
      destruct (factorize_loop _ l); simpl in *; lia.
  - destruct (position_of (Str s) u);
      [specialize (IH u)|specialize (IH (u ++ [Str s]))];
      destruct (factorize_loop _ l); simpl in *; lia.
Qed.

Lemma position_of_Some (x : cell) (u : list cell) (i : nat) :
  position_of x u = Some i → u !! i = Some x.
Proof.
  unfold position_of. destruct (list_find _ u) as [[j y]|] eqn:Hf; [|done].
  intros [= <-]. apply list_find_Some in Hf as (? & -> & _). done.
Qed.

Lemma position_of_None (x : cell) (u : list cell) :
  position_of x u = None → x ∉ u.
Proof.
  unfold position_of. destruct (list_find _ u) as [[j y]|] eqn:Hf; [done|].
  intros _ Hin. apply list_find_None in Hf.
  rewrite Forall_forall in Hf. by apply (Hf x).
Qed.

(** When no value is missing, the uniques of [factorize] are those of
    [unique], and every code is the position of its value among them. *)
Lemma factorize_loop_codes (u l : list cell) :
  NaN ∉ l →
  (factorize_loop u l).2 = unique_loop u l ∧
  Forall2 (λ c x, 0 ≤ c ∧ unique_loop u l !! Z.to_nat c = Some x)
    (factorize_loop u l).1 l.
Proof.
  revert u. induction l as [|x l IH]; intros u Hnan; [by split; [|constructor]|].
  assert (x ≠ NaN) as Hx by (intros ->; apply Hnan; left).
  assert (NaN ∉ l) as Hl by (intros ?; apply Hnan; by right).
  assert (∀ v (w : list cell), u !! v = Some x →
            unique_loop u w !! v = Some x) as Hkeep.
  { intros v w Hv. destruct (unique_loop_prefix u w) as [k ->].
    by apply lookup_app_l_Some. }
  destruct x as [|z|s]; [done| |].
  - simpl. destruct (position_of (Num z) u) as [i|] eqn:Hp.
    + apply position_of_Some in Hp.
      rewrite decide_True by (by eapply list_elem_of_lookup_2).
      destruct (IH u Hl) as [IH1 IH2].
      destruct (factorize_loop u l) as [codes u']. simpl in *. split; [done|].
      constructor; [|done]. split; [lia|]. rewrite Nat2Z.id. by apply Hkeep.
    + apply position_of_None in Hp. rewrite decide_False by done.
      destruct (IH (u ++ [Num z]) Hl) as [IH1 IH2].
      destruct (factorize_loop (u ++ [Num z]) l) as [codes u']. simpl in *.
      split; [done|]. constructor; [|done]. split; [lia|]. rewrite Nat2Z.id.
      destruct (unique_loop_prefix (u ++ [Num z]) l) as [k ->].
      rewrite <- app_assoc. simpl. by apply list_lookup_middle.
  - simpl. destruct (position_of (Str s) u) as [i|] eqn:Hp.
    + apply position_of_Some in Hp.
      rewrite decide_True by (by eapply list_elem_of_lookup_2).
      destruct (IH u Hl) as [IH1 IH2].
      destruct (factorize_loop u l) as [codes u']. simpl in *. split; [done|].
      constructor; [|done]. split; [lia|]. rewrite Nat2Z.id. by apply Hkeep.
    + apply position_of_None in Hp. rewrite decide_False by done.
      destruct (IH (u ++ [Str s]) Hl) as [IH1 IH2].
      destruct (factorize_loop (u ++ [Str s]) l) as [codes u']. simpl in *.
      split; [done|]. constructor; [|done]. split; [lia|]. rewrite Nat2Z.id.
      destruct (unique_loop_prefix (u ++ [Str s]) l) as [k ->].
      rewrite <- app_assoc. simpl. by apply list_lookup_middle.
Qed.

Lemma py_getitem_nonneg {A} (l : list A) (c : Z) (x : A) :
  0 ≤ c → l !! Z.to_nat c = Some x → py_getitem l c = Ok x.
Proof.
  intros Hc Hl. unfold py_getitem.
  apply lookup_lt_Some in Hl as Hlt.
  rewrite decide_True by lia. by rewrite Hl.
Qed.

(** *** Reading and re-typing the target column *)

Lemma filter_nil_Forall {A} (P : A → Prop) `{!∀ x, Decision (P x)}
    (l : list A) :
  filter P l = [] ↔ Forall (λ x, ¬ P x) l.
Proof.
  induction l as [|a l IH]; [by split; [constructor|]|].
  rewrite filter_cons, Forall_cons. case_decide; [|tauto].
  split; [done|tauto].
Qed.

Lemma filter_label_NoDup (cols : list (string * Series)) (name : string)
    (s : Series) :
  NoDup cols.*1 → (name, s) ∈ cols →
  filter (λ c, c.1 = name) cols = [(name, s)].
Proof.
  induction cols as [|[n c] cols IH]; intros Hnd Hin.
  - by apply elem_of_nil in Hin.
  - rewrite fmap_cons in Hnd. apply NoDup_cons in Hnd as [Hn Hnd].
    rewrite filter_cons. simpl in *.
    apply elem_of_cons in Hin as [Hin|Hin].
    + injection Hin as <- <-. rewrite decide_True by done. f_equal.
      apply filter_nil_Forall, Forall_forall. intros [n' c'] Hc' ?. simpl in *.
      subst n'. apply Hn, list_elem_of_fmap. by exists (name, c').
    + rewrite decide_False; [by apply IH|].
      intros ->. apply Hn, list_elem_of_fmap. by exists (name, s).
Qed.

Lemma getitem_present (data : DataFrame) (name : string) :
  NoDup (column_names data) → name ∈ column_names data →
  ∃ col, getitem data name = Ok col ∧ (name, col) ∈ columns data.
Proof.
  intros Hnd Hin. unfold column_names in Hin.
  apply list_elem_of_fmap in Hin as ([n col] & -> & Hin). simpl.
  exists col. split; [|done]. unfold getitem.
  by rewrite (filter_label_NoDup _ _ _ Hnd Hin).
Qed.

Lemma getitem_Ok (data : DataFrame) (name : string) (col : Series) :
  getitem data name = Ok col →
  filter (λ c, c.1 = name) (columns data) = [(name, col)].
Proof.
  unfold getitem. intros Hget.
  destruct (filter _ (columns data)) as [|[n c] [|c' l]] eqn:Hf; try done.
  injection Hget as ->.
  assert ((n, col) ∈ filter (λ c : string * Series, c.1 = name) (columns data))
    as Hin by (rewrite Hf; left).
  apply list_elem_of_filter in Hin as [Hn _]. simpl in Hn. by subst n.
Qed.

Lemma getitem_elem_of (data : DataFrame) (name : string) (col : Series) :
  getitem data name = Ok col →
  (name, col) ∈ columns data ∧ name ∈ column_names data.
Proof.
  intros Hget%getitem_Ok.
  assert ((name, col) ∈ columns data) as Hin.
  { eapply (list_elem_of_filter (λ c : string * Series, c.1 = name)).
    rewrite Hget. left. }
  split; [done|]. apply list_elem_of_fmap. by exists (name, col).
Qed.

Lemma getitem_missing (data : DataFrame) (name : string) :
  name ∉ column_names data ↔ getitem data name = Raise KeyError.
Proof.
  unfold getitem. split.
  - intros Hout.
    destruct (filter _ (columns data)) as [|[n c] l] eqn:Hf; [done|].
    exfalso. apply Hout.
    assert ((n, c) ∈ filter (λ c : string * Series, c.1 = name)
                       (columns data)) as Hin by (rewrite Hf; left).
    apply list_elem_of_filter in Hin as [Hn Hin]. simpl in Hn. subst n.
    apply list_elem_of_fmap. by exists (name, c).
  - intros Hget Hin. apply list_elem_of_fmap in Hin as ([n c] & -> & Hin).
    assert ((n, c) ∈ filter (λ c : string * Series, c.1 = n) (columns data))
      as Hf by (by apply list_elem_of_filter).
    simpl in *. destruct (filter _ (columns data)) as [|c1 [|c2 l]]; try done.
    by apply elem_of_nil in Hf.
Qed.

Lemma filter_label_retyped (name : string) (cols : list (string * Series)) :
  filter (λ c, c.1 = name)
    ((λ c, if decide (c.1 = name) then (c.1, astype_object c.2) else c)
     <$> cols) =
  (λ c, (c.1, astype_object c.2)) <$> filter (λ c, c.1 = name) cols.
Proof.
  induction cols as [|[n c] cols IH]; [done|].
  rewrite fmap_cons, !filter_cons. simpl.
  destruct (decide (n = name)) as [->|Hne]; simpl.
  - rewrite decide_True by done. f_equal. exact IH.
  - by rewrite decide_False by done.
Qed.

Lemma filter_others_retyped (name : string) (cols : list (string * Series)) :
  filter (λ c, c.1 ≠ name)
    ((λ c, if decide (c.1 = name) then (c.1, astype_object c.2) else c)
     <$> cols) =
  filter (λ c, c.1 ≠ name) cols.
Proof.
  induction cols as [|[n c] cols IH]; [done|].
  rewrite fmap_cons, !filter_cons. simpl. rewrite IH.
  destruct (decide (n = name)) as [->|Hne]; simpl.
  - by rewrite !decide_False by tauto.
  - by rewrite !decide_True by done.
Qed.

Lemma getitem_setitem_astype_object (data : DataFrame) (name : string) :
  getitem (setitem_astype_object data name) name =
  match getitem data name with
  | Ok col => Ok (astype_object col)
  | Raise e => Raise e
  end.
Proof.
  unfold getitem, setitem_astype_object. simpl. rewrite filter_label_retyped.
  by destruct (filter _ (columns data)) as [|c [|c' l]].
Qed.

Lemma setitem_astype_object_names (data : DataFrame) (name : string) :
  column_names (setitem_astype_object data name) = column_names data.
Proof.
  unfold column_names. simpl. rewrite <- list_fmap_compose.
  apply list_fmap_ext. intros i [n c] _. simpl. by case_decide.
Qed.

Lemma setitem_astype_object_again (data : DataFrame) (name : string) :
  setitem_astype_object (setitem_astype_object data name) name =
  setitem_astype_object data name.
Proof.
  unfold setitem_astype_object. simpl. f_equal.
  rewrite <- list_fmap_compose. apply list_fmap_ext.
  intros i [n c] _. simpl. destruct (decide (n = name)); simpl.
  - by rewrite decide_True.
  - by rewrite decide_False.
Qed.

Lemma has_feature_column_retyped (data : DataFrame) (name : string) :
  has_feature_column (setitem_astype_object data name) name ↔
  has_feature_column data name.
Proof.
  unfold has_feature_column. simpl. rewrite Exists_fmap.
  split; intros Hex; (eapply Exists_impl; [exact Hex|]);
    intros [n c]; simpl; by case_decide.
Qed.

Lemma has_feature_column_others (data : DataFrame) (name : string) :
  has_feature_column data name ↔
  filter (λ c, c.1 ≠ name) (columns data) ≠ [].
Proof.
  unfold has_feature_column. rewrite filter_nil_Forall, Forall_Exists_neg.
  destruct (decide (Exists (λ c : string * Series, c.1 ≠ name)
                      (columns data))); tauto.
Qed.

(** *** The three ways [encode_data] can go *)

Lemma encode_data_unfold (data : DataFrame) (targetcol : string) :
  encode_data data targetcol =
  if decide (targetcol ∈ column_names data) then
    if decide (has_feature_column data targetcol) then
      let X := fillna0 (concat_dummies
                 (mkFrame (index data)
                    (filter (λ c, c.1 ≠ targetcol) (columns data)))) in
      let data' := setitem_astype_object data targetcol in
      match getitem data targetcol with
      | Ok col => (Ok (X, (factorize (astype_object col)).1, column_names X,
                       unique (astype_object col)), data')
      | Raise e => (Raise e, data')
      end
    else (Raise ValueError, data)
  else (Raise KeyError, data).
Proof.
  unfold encode_data, drop_column.
  destruct (decide (targetcol ∈ column_names data)) as [Hin|Hout]; [|done].
  simpl. unfold get_dummies. simpl.
  destruct (decide (has_feature_column data targetcol)) as [Hf|Hf].
  - rewrite decide_False by (by apply has_feature_column_others).
    rewrite getitem_setitem_astype_object.
    by destruct (getitem data targetcol).
  - rewrite decide_True; [done|].
    destruct (decide (filter (λ c : string * Series, c.1 ≠ targetcol)
                        (columns data) = [])) as [|Hne]; [done|].
    by apply has_feature_column_others in Hne.
Qed.

Lemma encode_data_eq (data : DataFrame) (targetcol : string) (col : Series) :
  getitem data targetcol = Ok col →
  has_feature_column data targetcol →
  let X := fillna0 (concat_dummies
             (mkFrame (index data)
                (filter (λ c, c.1 ≠ targetcol) (columns data)))) in
  encode_data data targetcol =
  (Ok (X, (factorize (astype_object col)).1, column_names X,
       unique (astype_object col)),
   setitem_astype_object data targetcol).
Proof.
  intros Hcol Hf X. rewrite encode_data_unfold.
  rewrite decide_True by (by eapply getitem_elem_of).
  rewrite decide_True by done. by rewrite Hcol.
Qed.

Lemma encode_data_missing (data : DataFrame) (targetcol : string) :
  targetcol ∉ column_names data →
  encode_data data targetcol = (Raise KeyError, data).
Proof. intros Hout. rewrite encode_data_unfold. by rewrite decide_False. Qed.

Lemma encode_data_no_features (data : DataFrame) (targetcol : string) :
  targetcol ∈ column_names data → ¬ has_feature_column data targetcol →
  encode_data data targetcol = (Raise ValueError, data).
Proof.
  intros Hin Hf. rewrite encode_data_unfold.
  rewrite decide_True by done. by rewrite decide_False.
Qed.

(** What a returned result is made of. *)
Lemma encode_data_Ok (data : DataFrame) (targetcol : string) (X : DataFrame)
    (y : list Z) (features : list string) (target_labels : list cell) :
  (encode_data data targetcol).1 = Ok (X, y, features, target_labels) →
  ∃ col,
    getitem data targetcol = Ok col ∧ has_feature_column data targetcol ∧
    X = fillna0 (concat_dummies
          (mkFrame (index data)
             (filter (λ c, c.1 ≠ targetcol) (columns data)))) ∧
    y = (factorize (astype_object col)).1 ∧ features = column_names X ∧
    target_labels = unique (astype_object col).
Proof.
  rewrite encode_data_unfold. intros Hrun.
  destruct (decide (targetcol ∈ column_names data)); [|done].
  destruct (decide (has_feature_column data targetcol)); [|done].
  destruct (getitem data targetcol) as [col|]; [|done].
  simpl in Hrun. injection Hrun as <- <- <- <-. by exists col.
Qed.

Lemma has_feature_column_other (data : DataFrame) (targetcol other : string) :
  other ∈ column_names data → other ≠ targetcol →
  has_feature_column data targetcol.
Proof.
  intros ([n c] & -> & Hin)%list_elem_of_fmap Hne.
  apply Exists_exists. by exists (n, c).
Qed.

Lemma get_dummies_rows (df : DataFrame) (n : nat) :
  Forall (λ c, length (s_values c.2) = n) (columns df) →
  Forall (λ c, length (s_values c.2) = n)
    (columns (fillna0 (concat_dummies df))).
Proof.
  intros Hall. simpl. rewrite Forall_fmap, Forall_app. split.
  - apply Forall_forall. intros c [_ Hc]%list_elem_of_filter.
    rewrite Forall_forall in Hall. simpl. rewrite length_fmap. by apply Hall.
  - apply Forall_forall. intros c (d & Hc & Hd)%list_elem_of_bind.
    apply list_elem_of_filter in Hd as [_ Hd].
    unfold dummies_of in Hc. apply list_elem_of_fmap in Hc as (v & -> & _).
    simpl. rewrite !length_fmap. rewrite Forall_forall in Hall. by apply Hall.
Qed.

(** C4, as amended.  For a well-formed table that has the target column and
    at least one other column, [encode_data] returns a feature matrix with as
    many rows as the table (every column of it that long), a target vector of
    that length, and as many target labels as there are distinct values in
    the target column. *)
Theorem encode_data_shape (data : DataFrame) (targetcol other : string) :
  wf_frame data → targetcol ∈ column_names data →
  other ∈ column_names data → other ≠ targetcol →
  ∃ X y features target_labels target,
    (encode_data data targetcol).1 = Ok (X, y, features, target_labels) ∧
    getitem data targetcol = Ok target ∧
    shape0 X = shape0 data ∧
    Forall (λ c, length (s_values c.2) = shape0 X) (columns X) ∧
    length y = shape0 data ∧
    length target_labels = size (list_to_set (s_values target) : gset cell).
Proof.
  intros [Hrows Hnd] Hin Hother Hne.
  destruct (getitem_present data targetcol Hnd Hin) as (col & Hcol & Hmem).
  rewrite (encode_data_eq data targetcol col Hcol)
    by (by eapply has_feature_column_other).
  simpl. eexists _, _, _, _, col. split_and!; [done..| | |].
  - apply get_dummies_rows. simpl.
    apply Forall_forall. intros c [_ Hc]%list_elem_of_filter.
    rewrite Forall_forall in Hrows. by apply Hrows.
  - unfold factorize. rewrite factorize_loop_length. simpl.
    rewrite Forall_forall in Hrows. by apply (Hrows _ Hmem).
  - by rewrite unique_distinct.
Qed.

(** With no missing target value, every code is a position in the labels and
    the label there is the row's own target value. *)
Lemma encode_data_codes (data : DataFrame) (targetcol : string)
    (target : Series) :
  getitem data targetcol = Ok target →
  has_feature_column data targetcol →
  NaN ∉ s_values target →
  ∃ X y features target_labels,
    (encode_data data targetcol).1 = Ok (X, y, features, target_labels) ∧
    Forall2 (λ c v, 0 ≤ c < Z.of_nat (length target_labels) ∧
                    py_getitem target_labels c = Ok v)
      y (s_values target).
Proof.
  intros Hcol Hf Hnan.
  rewrite (encode_data_eq data targetcol target Hcol Hf). simpl.
  eexists _, _, _, _. split; [done|].
  destruct (factorize_loop_codes [] (s_values target) Hnan) as [_ Hcodes].
  unfold factorize, unique. simpl.
  eapply Forall2_impl; [exact Hcodes|].
  intros c v [Hc Hv]. simpl in *. split.
  - apply lookup_lt_Some in Hv. lia.
  - by apply py_getitem_nonneg.
Qed.

(** The table after [encode_data]: once the first statement has gone through,
    the columns labelled as the target are re-typed as object; nothing else
    is touched. *)
Lemma encode_data_table (data : DataFrame) (targetcol : string) :
  (encode_data data targetcol).2 =
  if decide (targetcol ∈ column_names data ∧
             has_feature_column data targetcol)
  then setitem_astype_object data targetcol
  else data.
Proof.
  rewrite encode_data_unfold.
  destruct (decide (targetcol ∈ column_names data)) as [Hin|Hout].
  - destruct (decide (has_feature_column data targetcol)) as [Hf|Hf].
    + rewrite decide_True by done. cbv zeta.
      by destruct (getitem data targetcol).
    + rewrite decide_False by tauto. done.
  - by rewrite decide_False by tauto.
Qed.

Lemma setitem_astype_object_same (data : DataFrame) (targetcol : string) :
  setitem_astype_object data targetcol = data ↔
  ∀ s, (targetcol, s) ∈ columns data → s_dtype s = Object.
Proof.
  destruct data as [idx cols]. unfold setitem_astype_object. simpl. split.
  - intros [= Heq] s Hs.
    apply list_elem_of_lookup_1 in Hs as [i Hi].
    apply (f_equal (λ l, l !! i)) in Heq.
    rewrite list_lookup_fmap, Hi in Heq. simpl in Heq.
    rewrite decide_True in Heq by done.
    injection Heq as Heq. rewrite <- Heq. done.
  - intros Hobj. f_equal. rewrite <- (list_fmap_id cols) at 2.
    apply list_fmap_ext. intros i [n [d vs]] Hi. simpl.
    case_decide; [|done]. subst n. unfold astype_object. simpl.
    apply list_elem_of_lookup_2 in Hi. apply Hobj in Hi. simpl in Hi.
    by subst d.
Qed.

(** The caller's table after [encode_data]: row labels, column order and all
    values are as before, and so is every dtype but that of the columns
    labelled as the target once the first statement has gone through. *)
Lemma encode_data_frame (data : DataFrame) (targetcol : string) :
  let data' := (encode_data data targetcol).2 in
  index data' = index data ∧
  Forall2 (λ c c', c'.1 = c.1 ∧ s_values c'.2 = s_values c.2 ∧
                   s_dtype c'.2 =
                   if decide (c.1 = targetcol ∧
                              has_feature_column data targetcol)
                   then Object else s_dtype c.2)
    (columns data) (columns data') ∧
  (data' = data ↔
   ¬ has_feature_column data targetcol ∨
   ∀ s, (targetcol, s) ∈ columns data → s_dtype s = Object).
Proof.
  intros data'. unfold data'. rewrite encode_data_table.
  destruct (decide (targetcol ∈ column_names data ∧
                    has_feature_column data targetcol)) as [[Hin Hf]|Hnot].
  - split_and!; [done| |].
    + simpl. apply Forall2_fmap_r, Forall_Forall2_diag, Forall_forall.
      intros [n s] _. simpl. destruct (decide (n = targetcol)).
      * by rewrite decide_True.
      * by rewrite decide_False by tauto.
    + rewrite setitem_astype_object_same. tauto.
  - split_and!; [done| |].
    + apply Forall_Forall2_diag, Forall_forall. intros [n s] Hc. simpl.
      split_and!; [done..|].
      rewrite decide_False; [done|]. intros [-> Hf]. apply Hnot.
      split; [|done]. apply list_elem_of_fmap. by exists (targetcol, s).
    + split; [|done]. intros _.
      destruct (decide (has_feature_column data targetcol)); [|tauto].
      right. intros s Hs. exfalso. apply Hnot. split; [|done].
      apply list_elem_of_fmap. by exists (targetcol, s).
Qed.

(** ** The splitter *)

Lemma take_at_ok {A} (l : list A) (idxs : list nat) :
  Forall (λ i, (i < length l)%nat) idxs →
  ∃ r, take_at l idxs = Ok r ∧ Some <$> r = (λ i, l !! i) <$> idxs.
Proof.
  induction 1 as [|i idxs Hi _ (r & Hr & Hlook)]; [by exists []|].
  destruct (lookup_lt_is_Some_2 l i Hi) as [x Hx].
  exists (x :: r). split.
  - unfold take_at in *. simpl. rewrite Hx. simpl. by rewrite Hr.
  - by rewrite !fmap_cons, Hx, Hlook.
Qed.

Lemma iloc_rows_ok (X : DataFrame) (idxs : list nat) :
  Forall (λ c, length (s_values c.2) = shape0 X) (columns X) →
  Forall (λ i, (i < shape0 X)%nat) idxs →
  ∃ X', iloc_rows X idxs = Ok X' ∧
        Some <$> index X' = (λ i, index X !! i) <$> idxs ∧
        schema X' = schema X ∧
        Forall2 (λ c c', Some <$> s_values c'.2 = (λ i, s_values c.2 !! i) <$> idxs)
          (columns X) (columns X').
Proof.
  intros Hcols Hidx. unfold iloc_rows.
  destruct (take_at_ok (index X) idxs Hidx) as (idx' & -> & Hidx'). simpl.
  assert (∃ cols',
            mapM (λ c : string * Series,
                    vs ← take_at (s_values c.2) idxs;
                    Ok (c.1, mkSeries (s_dtype c.2) vs)) (columns X) = Ok cols' ∧
            (λ c, (c.1, s_dtype c.2)) <$> cols' =
            (λ c, (c.1, s_dtype c.2)) <$> columns X ∧
            Forall2 (λ c c', Some <$> s_values c'.2 =
                             (λ i, s_values c.2 !! i) <$> idxs)
              (columns X) cols') as (cols' & -> & Hschema & Hvals).
  { induction Hcols as [|c cols Hc _ (cols' & Hm & Hs & Hv)].
    - exists []. by split_and!; [..|constructor].
    - destruct (take_at_ok (s_values c.2) idxs) as (vs & Hvs & Hlook).
      { by rewrite Hc. }
      exists ((c.1, mkSeries (s_dtype c.2) vs) :: cols').
      split_and!.
      + simpl. rewrite Hvs. simpl. by rewrite Hm.
      + by rewrite !fmap_cons, Hs.
      + by constructor. }
  simpl. eexists. split_and!; done.
Qed.

Lemma validate_shuffle_split_small (n : nat) :
  (n < 2)%nat → validate_shuffle_split n = Raise ValueError.
Proof.
  intros Hn. unfold validate_shuffle_split.
  rewrite decide_True; [done|].
  assert ((Z.of_nat n * 4) `div` 5 = 0); [|lia].
  apply Z.div_small. lia.
Qed.

Lemma validate_shuffle_split_ok (n : nat) :
  (2 ≤ n)%nat →
  ∃ n_train n_test,
    validate_shuffle_split n = Ok (n_train, n_test) ∧
    Z.of_nat n_train = (Z.of_nat n * 4) `div` 5 ∧
    (n_train + n_test = n)%nat ∧ (1 ≤ n_train)%nat ∧ (1 ≤ n_test)%nat.
Proof.
  intros Hn. unfold validate_shuffle_split.
  pose proof (Z.div_mod (Z.of_nat n * 4) 5 ltac:(lia)) as Hdiv.
  pose proof (Z.mod_pos_bound (Z.of_nat n * 4) 5 ltac:(lia)) as Hmod.
  rewrite decide_False by lia.
  eexists _, _. split; [done|]. lia.
Qed.

Section SplitterProperties.

Variable permutation : nat → list nat.
Hypothesis permutation_shuffles : ∀ n, permutation n ≡ₚ seq 0 n.

(** C7.  On a table of fewer than 2 rows [splitdata] raises (scikit-learn's
    ValueError for an empty training part: the error that tells of too few
    rows).  On 2 rows or more it returns a training and a test part that
    together hold every row exactly once, with [floor(0.8 * n)] rows to train
    on and the other [n - floor(0.8 * n)], at least one, to test on.  Each
    part has the columns of the table, by name and dtype, and in each column
    the cells of its rows; row labels and class labels follow the rows. *)
Theorem splitdata_partition (X : DataFrame) (y : list Z) :
  Forall (λ c, length (s_values c.2) = shape0 X) (columns X) →
  length y = shape0 X →
  let n := shape0 X in
  ((n < 2)%nat → splitdata permutation X y = Raise ValueError) ∧
  ((2 ≤ n)%nat →
   ∃ ind_train ind_test X_train X_test y_train y_test,
     splitdata permutation X y = Ok (X_train, X_test, y_train, y_test) ∧
     ind_train ++ ind_test ≡ₚ seq 0 n ∧
     Z.of_nat (length ind_train) = (Z.of_nat n * 4) `div` 5 ∧
     (length ind_test = n - length ind_train)%nat ∧
     (1 ≤ length ind_test)%nat ∧
     Some <$> index X_train = (λ i, index X !! i) <$> ind_train ∧
     Some <$> index X_test = (λ i, index X !! i) <$> ind_test ∧
     Some <$> y_train = (λ i, y !! i) <$> ind_train ∧
     Some <$> y_test = (λ i, y !! i) <$> ind_test ∧
     schema X_train = schema X ∧ schema X_test = schema X ∧
     Forall2 (λ c c', Some <$> s_values c'.2 =
                      (λ i, s_values c.2 !! i) <$> ind_train)
       (columns X) (columns X_train) ∧
     Forall2 (λ c c', Some <$> s_values c'.2 =
                      (λ i, s_values c.2 !! i) <$> ind_test)
       (columns X) (columns X_test)).
Proof.
  intros Hcols Hy n. unfold splitdata, train_test_split.
  rewrite decide_True by done. fold n. split.
  - intros Hn. by rewrite validate_shuffle_split_small.
  - intros Hn.
    destruct (validate_shuffle_split_ok n Hn)
      as (n_train & n_test & -> & Htrain & Hsum & Hpos & Hpos').
    simpl.
    set (shuffled := permutation n).
    assert (length shuffled = n) as Hlen.
    { unfold shuffled. by rewrite permutation_shuffles, length_seq. }
    assert (Forall (λ i, (i < n)%nat) shuffled) as Hbound.
    { unfold shuffled. rewrite permutation_shuffles.
      apply Forall_forall. intros i [_ Hi]%elem_of_seq. lia. }
    set (ind_test := take n_test shuffled).
    set (ind_train := take n_train (drop n_test shuffled)).
    assert (ind_test ++ ind_train = shuffled) as Hparts.
    { unfold ind_test, ind_train.
      rewrite (take_ge (drop n_test shuffled))
        by (rewrite length_drop; lia).
      apply take_drop. }
    assert (Forall (λ i, (i < n)%nat) ind_test
            ∧ Forall (λ i, (i < n)%nat) ind_train) as [Hb1 Hb2].
    { apply Forall_app. by rewrite Hparts. }
    destruct (iloc_rows_ok X ind_train Hcols Hb2)
      as (X_train & -> & Hi1 & Hs1 & Hv1).
    destruct (iloc_rows_ok X ind_test Hcols Hb1)
      as (X_test & -> & Hi2 & Hs2 & Hv2).
    destruct (take_at_ok y ind_train) as (y_train & -> & Hy1);
      [by rewrite Hy|].
    destruct (take_at_ok y ind_test) as (y_test & -> & Hy2);
      [by rewrite Hy|].
    simpl. exists ind_train, ind_test. eexists _, _, _, _.
    assert (length ind_test = n_test) as Htest.
    { unfold ind_test. rewrite length_take. lia. }
    assert (length ind_train = n_train) as Htr.
    { unfold ind_train. rewrite length_take, length_drop. lia. }
    split_and!; try done; try lia.
    rewrite (comm (++)), Hparts. apply permutation_shuffles.
Qed.

End SplitterProperties.

(** ** Rounding and ranking *)

Lemma round_half_even_bounds (q : Q) :
  Qfloor q ≤ round_half_even q ≤ Qfloor q + 1.
Proof.
  unfold round_half_even.
  destruct (q - inject_Z (Qfloor q) ?= 1 # 2)%Q; [|lia..].
  destruct (Z.even (Qfloor q)); lia.
Qed.

Lemma round_half_even_mono (a b : Q) :
  (a <= b)%Q → round_half_even a ≤ round_half_even b.
Proof.
  intros Hab. pose proof (Qfloor_resp_le a b Hab) as Hfl.
  pose proof (round_half_even_bounds a). pose proof (round_half_even_bounds b).
  destruct (decide (Qfloor a = Qfloor b)) as [Heq|]; [|lia].
  unfold round_half_even. rewrite <- Heq.
  destruct (Qcompare_spec (a - inject_Z (Qfloor a)) (1 # 2)) as [Ha|Ha|Ha],
    (Qcompare_spec (b - inject_Z (Qfloor a)) (1 # 2)) as [Hb|Hb|Hb];
    try lia; try (destruct (Z.even (Qfloor a)); lia); exfalso; lra.
Qed.

(** [np.round(x, 2)] gives the double nearest to a whole number of
    hundredths. *)
Lemma round2_hundredths (q : Q) :
  ∃ k : Z, round2 q = binary64 (inject_Z k / inject_Z 100).
Proof. unfold round2, np_round. by eexists. Qed.

#[global] Instance by_weight_desc_trans : Transitive by_weight_desc.
Proof. intros a b c. unfold by_weight_desc. lra. Qed.

#[global] Instance by_weight_desc_total : Total by_weight_desc.
Proof. intros a b. unfold by_weight_desc. lra. Qed.

#[global] Instance by_score_desc_trans : Transitive by_score_desc.
Proof. intros a b c. unfold by_score_desc. lra. Qed.

#[global] Instance by_score_desc_total : Total by_score_desc.
Proof. intros a b. unfold by_score_desc. lra. Qed.

Lemma StronglySorted_take {A} (R : relation A) (n : nat) (l : list A) :
  StronglySorted R l → StronglySorted R (take n l).
Proof.
  intros Hl. rewrite <- (take_drop n l) in Hl.
  by apply StronglySorted_app_1_l in Hl.
Qed.

Lemma length_take_le' {A} (n : nat) (l : list A) : (length (take n l) ≤ n)%nat.
Proof. rewrite length_take. lia. Qed.

(** The table of weights before rounding: a row for each position picked,
    holding the name and the importance found there. *)
Lemma explain_weights_df_rows (argsort_k_largest : list Q → nat → list nat)
    (importances : list (Q * Q)) (names : list string) (top : nat)
    (rows : list importance_row) :
  explain_weights_df argsort_k_largest importances names top = Ok rows →
  Forall2 (λ j r, names !! j = Some (feature r) ∧
                  importances !! j = Some (weight r, std r))
    (argsort_k_largest importances.*1 top) rows.
Proof.
  unfold explain_weights_df.
  generalize (argsort_k_largest importances.*1 top). intros idxs.
  revert rows. induction idxs as [|j idxs IH]; intros rows Hrun.
  - injection Hrun as <-. constructor.
  - simpl in Hrun.
    destruct (names !! j) as [name|] eqn:Hname; [|done].
    destruct (importances !! j) as [[w sd]|] eqn:Hws; [|done]. simpl in Hrun.
    destruct (mapM _ idxs) as [rows'|] eqn:Hrest; [|done]. simpl in Hrun.
    injection Hrun as <-. constructor; [done|]. by apply IH.
Qed.

(** Means of absolute values are not negative. *)
Lemma Qsum_nonneg (l : list Q) : Forall (λ q, (0 <= q)%Q) l → (0 <= Qsum l)%Q.
Proof.
  induction 1 as [|q l Hq _ IH]; simpl; [lra|]. lra.
Qed.

Lemma mean_abs_nonneg (m : list (list Q)) (j : nat) : (0 <= mean_abs m j)%Q.
Proof.
  unfold mean_abs.
  assert (0 <= Qsum ((λ row, Qabs (default 0%Q (row !! j))) <$> m))%Q as Hs.
  { apply Qsum_nonneg, Forall_fmap, Forall_forall. intros row _. simpl.
    apply Qabs_nonneg. }
  destruct (decide (length m = 0%nat)) as [Hm|Hm].
  - rewrite Hm. unfold Qdiv. change (/ inject_Z (Z.of_nat 0))%Q with 0%Q. lra.
  - apply Qle_shift_div_l; [|lra].
    unfold Qlt. simpl. lia.
Qed.

Lemma summary_plot_bar_ranked (values : list (list (list Q)))
    (names : list string) (max_display : nat) :
  let bars := summary_plot_bar values names max_display in
  (length bars ≤ max_display)%nat ∧ StronglySorted by_score_desc bars ∧
  Forall (λ b, (0 <= b.2)%Q) bars ∧
  Forall (λ b, ∃ j, names !! j = Some b.1 ∧
                    b.2 = Qsum ((λ m, mean_abs m j) <$> values)) bars.
Proof.
  unfold summary_plot_bar. split_and!.
  - apply length_take_le'.
  - apply StronglySorted_take, StronglySorted_merge_sort; apply _.
  - apply Forall_take. rewrite merge_sort_Permutation.
    apply Forall_forall. intros b Hb.
    apply elem_of_lookup_imap in Hb as (j & name & -> & _). simpl.
    apply Qsum_nonneg, Forall_fmap, Forall_forall. intros m _. simpl.
    apply mean_abs_nonneg.
  - apply Forall_take. rewrite merge_sort_Permutation.
    apply Forall_forall. intros b Hb.
    apply elem_of_lookup_imap in Hb as (j & name & -> & Hj). simpl.
    by exists j.
Qed.

Lemma StronglySorted_weaken {A} (R R' : relation A) (P : A → Prop)
    (l : list A) :
  (∀ a b, P a → P b → R a b → R' a b) →
  Forall P l → StronglySorted R l → StronglySorted R' l.
Proof.
  intros Himpl HP Hl. induction Hl as [|x l Hl IH Hx]; [constructor|].
  apply Forall_cons in HP as [Px HP]. constructor; [by apply IH|].
  rewrite Forall_forall in *. intros y Hy. apply Himpl; auto.
Qed.

(** ** Local explanations *)

Lemma py_getitem_in_range {A} (l : list A) (i : Z) :
  0 ≤ i < Z.of_nat (length l) →
  ∃ x, py_getitem l i = Ok x ∧ l !! Z.to_nat i = Some x.
Proof.
  intros Hi. destruct (lookup_lt_is_Some_2 l (Z.to_nat i)) as [x Hx]; [lia|].
  exists x. split; [|done]. apply py_getitem_nonneg; [lia|done].
Qed.

Lemma iloc_row_in_range (df : DataFrame) (i : Z) :
  Forall (λ c, length (s_values c.2) = shape0 df) (columns df) →
  0 ≤ i < Z.of_nat (shape0 df) →
  ∃ row, iloc_row df i = Ok row.
Proof.
  intros Hcols Hi. unfold iloc_row.
  destruct (py_getitem_in_range (index df) i Hi) as (lbl & -> & _). simpl.
  induction Hcols as [|c cols Hc _ [row Hrow]]; [by exists []|].
  destruct (py_getitem_in_range (s_values c.2) i) as (v & Hv & _);
    [by rewrite Hc|].
  exists ((c.1, v) :: row). simpl. rewrite Hv. simpl. by rewrite Hrow.
Qed.

Section LocalRuns.

Variable Booster : Type.
Variable tree_explainer : Booster → result TreeExplainer.

(** With an explainer at hand and every index in range, the additive local
    explanation is drawn. *)
Lemma show_local_interpretation_shap_runs (info_local : bool) (clf : Booster)
    (X_test : DataFrame) (pred : list Z) (slider_idx : Z)
    (explainer : TreeExplainer) (pred_i : Z) (of_class : list (list Q)) :
  tree_explainer clf = Ok explainer →
  Forall (λ c, length (s_values c.2) = shape0 X_test) (columns X_test) →
  0 ≤ slider_idx < Z.of_nat (shape0 X_test) →
  py_getitem pred slider_idx = Ok pred_i →
  0 ≤ pred_i < Z.of_nat (length (expected_value explainer)) →
  py_getitem (shap_values explainer X_test) pred_i = Ok of_class →
  length of_class = shape0 X_test →
  ∃ base contributions row,
    show_local_interpretation_shap Booster tree_explainer info_local clf
      X_test pred slider_idx =
    Ok ((if info_local then [StInfo info_local_shap] else []) ++
        [ForcePlot base contributions row]).
Proof.
  intros Hexp Hcols Hidx Hpred Hclass Hvalues Hrows.
  unfold show_local_interpretation_shap. rewrite Hexp. simpl.
  rewrite Hpred. simpl.
  destruct (py_getitem_in_range _ _ Hclass) as (base & -> & _). simpl.
  rewrite Hvalues. simpl.
  destruct (py_getitem_in_range of_class slider_idx) as (contrib & -> & _);
    [by rewrite Hrows|]. simpl.
  destruct (iloc_row_in_range X_test slider_idx Hcols Hidx) as [row ->].
  simpl. by exists base, contrib, row.
Qed.

End LocalRuns.

Section ExplainerProperties.

Variable Booster : Type.
Variable argsort_k_largest : list Q → nat → list nat.
Variable permutation_importance :
  Booster → nat → Z → DataFrame → list Z → result (list (Q * Q)).
Variable tree_explainer : Booster → result TreeExplainer.
Variable show_prediction :
  Booster → list (string * cell) → option (list cell) → nat →
  option (list bool) → result string.

(** eli5 picks no more positions than it is asked for. *)
Hypothesis argsort_k_largest_length :
  ∀ x k, (length (argsort_k_largest x k) ≤ k)%nat.



(** C2.  Whenever the additive local explanation is shown for the row at
    [slider_idx], the base value and the contribution matrix are the entries
    of [expected_value] and [shap_values] at the class [pred[slider_idx]], and
    the contributions are that matrix's row [slider_idx].  The true labels
    only enter the caption: with any other [y_test] the plot is the same. *)
Theorem shap_local_predicted_class (info_local : bool) (slider_idx : Z)
    (X_test : DataFrame) (y_test : list Z) (clf : Booster) (pred : list Z)
    (target_labels : list cell) (features : list string) (dim : model_dim)
    (ws : list widget) :
  show_local_interpretation Booster tree_explainer show_prediction info_local
    slider_idx X_test y_test clf pred target_labels features dim SHAP = Ok ws →
  ∃ explainer pred_i base of_class contributions row caption,
    tree_explainer clf = Ok explainer ∧
    py_getitem pred slider_idx = Ok pred_i ∧
    py_getitem (expected_value explainer) pred_i = Ok base ∧
    py_getitem (shap_values explainer X_test) pred_i = Ok of_class ∧
    py_getitem of_class slider_idx = Ok contributions ∧
    iloc_row X_test slider_idx = Ok row ∧
    ws = StText caption ::
         (if info_local then [StInfo info_local_shap] else []) ++
         [ForcePlot base contributions row] ∧
    ∀ y_test' ws',
      show_local_interpretation Booster tree_explainer show_prediction
        info_local slider_idx X_test y_test' clf pred target_labels features
        dim SHAP = Ok ws' →
      tail ws' = tail ws.
Proof.
  intros Hrun. unfold show_local_interpretation in Hrun.
  destruct (py_getitem pred slider_idx) as [pred_i|] eqn:Hpred; [|done].
  simpl in Hrun.
  destruct (py_getitem target_labels pred_i) as [predicted|]; [|done].
  simpl in Hrun.
  destruct (py_getitem y_test slider_idx) as [y_i|]; [|done]. simpl in Hrun.
  destruct (py_getitem target_labels y_i) as [actual|]; [|done].
  simpl in Hrun.
  destruct (show_local_interpretation_shap _ _ _ _ _ _ _)
    as [shown|] eqn:Hshap; [|done].
  injection Hrun as <-.
  unfold show_local_interpretation_shap in Hshap.
  destruct (tree_explainer clf) as [explainer|] eqn:Hexp; [|done].
  simpl in Hshap. rewrite Hpred in Hshap. simpl in Hshap.
  destruct (py_getitem (expected_value explainer) pred_i)
    as [base|] eqn:Hbase; [|done]. simpl in Hshap.
  destruct (py_getitem (shap_values explainer X_test) pred_i)
    as [of_class|] eqn:Hclass; [|done]. simpl in Hshap.
  destruct (py_getitem of_class slider_idx)
    as [contributions|] eqn:Hcontrib; [|done]. simpl in Hshap.
  destruct (iloc_row X_test slider_idx) as [row|] eqn:Hrow; [|done].
  injection Hshap as <-.
  exists explainer, pred_i, base, of_class, contributions, row.
  eexists. split_and!; try done.
  intros y_test' ws' Hrun'. unfold show_local_interpretation in Hrun'.
  rewrite Hpred in Hrun'. simpl in Hrun'.
  destruct (py_getitem target_labels pred_i) as [predicted'|]; [|done].
  simpl in Hrun'.
  destruct (py_getitem y_test' slider_idx) as [y_i'|]; [|done].
  simpl in Hrun'.
  destruct (py_getitem target_labels y_i') as [actual'|]; [|done].
  simpl in Hrun'.
  unfold show_local_interpretation_shap in Hrun'.
  rewrite Hexp in Hrun'. simpl in Hrun'.
  rewrite Hpred in Hrun'. simpl in Hrun'.
  rewrite Hbase in Hrun'. simpl in Hrun'.
  rewrite Hclass in Hrun'. simpl in Hrun'.
  rewrite Hcontrib in Hrun'. simpl in Hrun'.
  rewrite Hrow in Hrun'. simpl in Hrun'.
  by injection Hrun' as <-.
Qed.

End ExplainerProperties.

(** ** Model adapters *)

(** C1, as amended.  For the labels of a target column, the lightGBM
    classifier gets the multiclass objective exactly when the column has more
    than two distinct values and the binary objective otherwise; it is
    class-weighted ("balanced") exactly when the objective is multiclass, and
    unweighted when it is binary.  That classifier is the one fitted. *)
Theorem lgbm_objective_by_labels (target : Series) :
  let clf := lgbm_classifier (unique target) in
  let k := size (list_to_set (s_values target) : gset cell) in
  (objective clf = "multiclass" ↔ (2 < k)%nat) ∧
  (objective clf = "binary" ↔ (k ≤ 2)%nat) ∧
  (class_weight clf = Some "balanced" ↔ objective clf = "multiclass") ∧
  (class_weight clf = None ↔ objective clf = "binary") ∧
  ∀ (Booster : Type) fit xgb_train X_train y_train,
    train Booster fit xgb_train lightGBM (unique target) X_train y_train =
    fit (SkLGBM clf) X_train y_train.
Proof.
  intros clf k.
  assert ((2 < k)%nat ↔ (2 < length (unique target))%nat) as Hk.
  { unfold k. by rewrite <- unique_distinct. }
  split; [|split; [|split; [|split; [|done]]]];
    unfold clf, lgbm_classifier; case_decide; simpl; split; try done; lia.
Qed.

(** With two labels the objective is binary and there is no class weight. *)
Lemma lgbm_binary_unweighted :
  let clf := lgbm_classifier (unique (mkSeries Object [Str "no"; Str "yes";
                                                        Str "no"])) in
  objective clf = "binary" ∧ class_weight clf ≠ Some "balanced".
Proof. by vm_compute. Qed.

Section AdapterProperties.

Variable Booster : Type.
Variable fit : classifier → DataFrame → list Z → result Booster.
Variable xgb_train : xgb_params → DMatrix → result Booster.
Variable predict : Booster → DataFrame + DMatrix → result (list Z).

(** C6, as amended.  Training adds no check of its own to the library call:
    for each kind of model it is the library's fit (or train) on
    [(X_train, y_train)] with the parameters fixed in the source, whatever
    the classes in [y_train].  So it raises exactly when that call raises,
    with that call's exception; then no model is bound and nothing is
    predicted.  When it returns, prediction runs on the model returned, on
    the test table as it is or wrapped in a [DMatrix] for XGBoost. *)
Theorem train_fails_with_library (dim : model_dim) (target_labels : list cell)
    (X_train X_test : DataFrame) (y_train : list Z) :
  let library_call :=
    match dim with
    | randomforest =>
        fit (SkRandomForest {| n_estimators := 500; rf_random_state := 0 |})
          X_train y_train
    | lightGBM =>
        fit (SkLGBM {| class_weight := if decide (2 < length target_labels)%nat
                                       then Some "balanced" else None;
                       objective := if decide (2 < length target_labels)%nat
                                    then "multiclass" else "binary";
                       n_jobs := -1; verbose := -1 |})
          X_train y_train
    | XGBoost =>
        xgb_train {| max_depth := 5; silent := 1; random_state := 2;
                     num_class := length target_labels |}
          {| dm_data := X_train; dm_label := Some y_train |}
    end in
  let trained := train Booster fit xgb_train dim target_labels X_train y_train in
  let run := train_and_predict Booster fit xgb_train predict dim target_labels
               X_train X_test y_train in
  trained = library_call ∧
  (∀ e, library_call = Raise e ↔ trained = Raise e) ∧
  (∀ e, trained = Raise e → run = Raise e) ∧
  (∀ clf, trained = Ok clf →
          run = (pred ← match dim with
                        | XGBoost =>
                            predict clf (inr {| dm_data := X_test;
                                                dm_label := None |})
                        | _ => predict clf (inl X_test)
                        end;
                 Ok (clf, pred))).
Proof.
  intros library_call trained run.
  assert (trained = library_call) as Heq.
  { unfold trained, library_call, train, lgbm_classifier.
    destruct dim; [|done..]. by case_decide. }
  split_and!.
  - done.
  - intros e. by rewrite Heq.
  - intros e He. unfold run, train_and_predict. fold trained. by rewrite He.
  - intros clf Hclf. unfold run, train_and_predict. fold trained.
    rewrite Hclf. simpl. unfold make_pred. by destruct dim.
Qed.

End AdapterProperties.

(** A label vector with a single class is passed on to the library like any
    other; with a library that fits it (as scikit-learn's random forest
    does), training returns a model. *)
Lemma train_single_class_accepted :
  n_classes [0; 0; 0] = 1%nat ∧
  train unit fit_accepting xgb_train_accepting randomforest [Num 0]
    int_target_table [0; 0; 0] = Ok ().
Proof. by vm_compute. Qed.

(** ** Runs on the sample data *)

Example encode_sample :
  encode_data sample_table "species" =
  (Ok (mkFrame [0; 1; 2; 3]%nat
         [("width", mkSeries Float64 [Num 5; Num 0; Num 7; Num 5]);
          ("colour_blue", mkSeries UInt8 [Num 0; Num 1; Num 0; Num 0]);
          ("colour_red", mkSeries UInt8 [Num 1; Num 0; Num 0; Num 1])],
       [0; 1; 0; 2],
       ["width"; "colour_blue"; "colour_red"],
       [Str "b"; Str "a"; Str "c"]),
   sample_table).
Proof. vm_compute. reflexivity. Qed.

Example split_sizes :
  validate_shuffle_split 150 = Ok (120, 30)%nat ∧
  validate_shuffle_split 2 = Ok (1, 1)%nat ∧
  validate_shuffle_split 1 = Raise ValueError ∧
  validate_shuffle_split 0 = Raise ValueError.
Proof. by vm_compute. Qed.

Example filter_sample :
  filter_misclassified sample_X_test sample_y_test sample_pred =
  Ok (mkFrame [2; 4]%nat
        [("width", mkSeries Float64 [Num 6; Num 8]);
         ("colour_red", mkSeries UInt8 [Num 0; Num 1])],
      [1; 0], [0; 1]).
Proof. by vm_compute. Qed.

Example filter_all_correct :
  filter_misclassified sample_X_test sample_y_test sample_y_test =
  Ok (mkFrame [] [("width", mkSeries Float64 []);
                  ("colour_red", mkSeries UInt8 [])], [], []).
Proof. by vm_compute. Qed.

(** Rounding is that of doubles: the double written 0.015 lies below 15
    thousandths, yet its hundredfold is the double 1.5 and it is shown as
    0.02. *)
Example round2_samples :
  (round2 (1 # 8) == binary64 (12 # 100))%Q ∧
  (round2 (3 # 8) == binary64 (38 # 100))%Q ∧
  (binary64 (15 # 1000) < 15 # 1000)%Q ∧
  (round2 (binary64 (15 # 1000)) == binary64 (2 # 100))%Q ∧
  (round2 (binary64 (-3 # 1000)) == 0)%Q ∧
  (binary64 (1 # 10) == 3602879701896397 # 36028797018963968)%Q.
Proof. by vm_compute. Qed.

Example global_eli5_sample :
  show_global_interpretation_eli5 unit sample_argsort_k_largest
    sample_permutation_importance sample_X_test sample_y_test
    ["width"; "colour_red"] () randomforest =
  Ok [AltBarChart
        [{| feature := "width"; weight := round2 (1 # 8);
            std := round2 (1 # 100) |};
         {| feature := "colour_red"; weight := round2 (-3 # 1000);
            std := round2 (1 # 1000) |}]
        [{| feature := "width"; weight := round2 (1 # 8);
            std := round2 (1 # 100) |};
         {| feature := "colour_red"; weight := round2 (-3 # 1000);
            std := round2 (1 # 1000) |}]].
Proof. by vm_compute. Qed.

Example local_shap_sample :
  show_local_interpretation unit sample_tree_explainer sample_show_prediction
    false 1 sample_X_test sample_y_test () sample_pred [Str "a"; Str "b"] []
    lightGBM SHAP =
  Ok [StText "Prediction: a | Actual label: b";
      ForcePlot (1 # 2) [1 # 8; 0]%Q [("width", Num 6); ("colour_red", Num 0)]].
Proof. by vm_compute. Qed.

Example split_sample :
  splitdata backwards five_rows [0; 1; 0; 1; 1] =
  Ok (mkFrame [3; 2; 1; 0]%nat
        [("width", mkSeries Float64 [Num 8; Num 7; Num 6; Num 5])],
      mkFrame [4]%nat [("width", mkSeries Float64 [Num 9])],
      [1; 0; 1; 0], [1]).
Proof. by vm_compute. Qed.

(** ** Instances of the theorems on the sample data *)

Lemma wf_sample_table : wf_frame sample_table.
Proof. split; [repeat constructor|]. by apply (bool_decide_unpack _). Qed.

Lemma wf_int_target_table : wf_frame int_target_table.
Proof. split; [repeat constructor|]. by apply (bool_decide_unpack _). Qed.

Lemma backwards_shuffles (n : nat) : backwards n ≡ₚ seq 0 n.
Proof. apply reverse_Permutation. Qed.

Lemma filter_misclassified_rows_witness :
  length sample_y_test = shape0 sample_X_test ∧
  length sample_pred = shape0 sample_X_test ∧
  ∃ Xm ym pm,
    filter_misclassified sample_X_test sample_y_test sample_pred
    = Ok (Xm, ym, pm) ∧
    Some <$> index Xm =
    (λ i, index sample_X_test !! i)
    <$> misclassified_positions sample_y_test sample_pred.
Proof.
  split_and!; [reflexivity..|].
  destruct (filter_misclassified_rows sample_X_test sample_y_test sample_pred)
    as (Xm & ym & pm & Hrun & _ & Hidx & _);
    [reflexivity|reflexivity|repeat constructor|].
  by exists Xm, ym, pm.
Defined.

Lemma filter_misclassified_idempotent_witness :
  length sample_y_test = shape0 sample_X_test ∧
  length sample_pred = shape0 sample_X_test ∧
  ∃ Xm ym pm,
    filter_misclassified sample_X_test sample_y_test sample_pred
    = Ok (Xm, ym, pm) ∧
    filter_misclassified Xm ym pm = Ok (Xm, ym, pm).
Proof.
  split_and!; [reflexivity..|].
  apply (filter_misclassified_idempotent sample_X_test sample_y_test
           sample_pred); [reflexivity|reflexivity|repeat constructor].
Defined.

Lemma encode_data_shape_witness :
  wf_frame sample_table ∧ "species" ∈ column_names sample_table ∧
  "width" ∈ column_names sample_table ∧ "width" ≠ "species" ∧
  ∃ X y features target_labels target,
    (encode_data sample_table "species").1
    = Ok (X, y, features, target_labels) ∧
    getitem sample_table "species" = Ok target ∧
    shape0 X = shape0 sample_table ∧
    Forall (λ c, length (s_values c.2) = shape0 X) (columns X) ∧
    length y = shape0 sample_table ∧
    length target_labels = size (list_to_set (s_values target) : gset cell).
Proof.
  assert ("species" ∈ column_names sample_table) as Hin
    by (by apply (bool_decide_unpack _)).
  assert ("width" ∈ column_names sample_table) as Hother
    by (by apply (bool_decide_unpack _)).
  assert ("width" ≠ "species") as Hne by done.
  split_and!; [apply wf_sample_table|exact Hin|exact Hother|exact Hne|].
  apply (encode_data_shape sample_table "species" "width" wf_sample_table
           Hin Hother Hne).
Defined.

Lemma splitdata_partition_witness :
  (∀ n, backwards n ≡ₚ seq 0 n) ∧
  length [0; 1; 0; 1; 1] = shape0 five_rows ∧
  ∃ ind_train ind_test X_train X_test y_train y_test,
    splitdata backwards five_rows [0; 1; 0; 1; 1]
    = Ok (X_train, X_test, y_train, y_test) ∧
    ind_train ++ ind_test ≡ₚ seq 0 5 ∧
    length ind_train = 4%nat ∧ length ind_test = 1%nat.
Proof.
  split_and!; [apply backwards_shuffles|reflexivity|].
  destruct (splitdata_partition backwards backwards_shuffles five_rows
              [0; 1; 0; 1; 1]) as [_ Hsplit];
    [repeat constructor|reflexivity|].
  destruct Hsplit as (ind_train & ind_test & X_train & X_test & y_train &
                      y_test & Hrun & Hperm & Htrain & Htest & _);
    [unfold shape0; simpl; lia|].
  exists ind_train, ind_test, X_train, X_test, y_train, y_test.
  change (shape0 five_rows) with 5%nat in *.
  change ((Z.of_nat 5 * 4) `div` 5) with 4 in Htrain.
  split_and!; [done|done|lia|lia].
Defined.

Lemma sample_argsort_k_largest_length (x : list Q) (k : nat) :
  (length (sample_argsort_k_largest x k) ≤ k)%nat.
Proof. unfold sample_argsort_k_largest. apply length_take_le'. Qed.


Lemma shap_local_predicted_class_witness :
  sample_y_test !! 1%nat = Some 1 ∧ sample_pred !! 1%nat = Some 0 ∧
  ∃ explainer base contributions row caption,
    sample_tree_explainer () = Ok explainer ∧
    py_getitem (expected_value explainer) 0 = Ok base ∧
    show_local_interpretation unit sample_tree_explainer
      sample_show_prediction false 1 sample_X_test sample_y_test ()
      sample_pred [Str "a"; Str "b"] [] lightGBM SHAP
    = Ok [StText caption; ForcePlot base contributions row].
Proof.
  split_and!; [reflexivity..|].
  destruct (shap_local_predicted_class unit sample_tree_explainer
              sample_show_prediction false 1 sample_X_test sample_y_test ()
              sample_pred [Str "a"; Str "b"] [] lightGBM _ eq_refl)
    as (explainer & pred_i & base & of_class & contributions & row & caption
        & Hexp & Hpred & Hbase & _ & _ & _ & Hws & _).
  injection Hpred as <-.
  exists explainer, base, contributions, row, caption.
  split_and!; [exact Hexp|exact Hbase|].
  simpl in Hws. rewrite <- Hws. reflexivity.
Defined.

(** ** Where the code departs from the description *)

(** A table that has nothing but its target column is refused: the first
    statement of [encode_data] raises, and nothing is returned. *)
Lemma encode_data_target_only :
  wf_frame target_only_table ∧ "label" ∈ column_names target_only_table ∧
  encode_data target_only_table "label" = (Raise ValueError, target_only_table).
Proof.
  split_and!; [|by apply (bool_decide_unpack _)|by vm_compute].
  split; [repeat constructor|]. by apply (bool_decide_unpack _).
Qed.



(** C9.  On a table with an empty cell in the target column the invariant
    fails: the first row gets the code -1, the second the code 0, while the
    labels are [nan, "a"]; so the label at the second row's code is [nan]
    instead of the row's value ["a"], and the label the first row's code
    selects (from the end) is ["a"] instead of [nan]. *)
Theorem encode_data_missing_target_label :
  ∃ X target,
    (encode_data nan_target_table "label").1
    = Ok (X, [-1; 0], ["age"], [NaN; Str "a"]) ∧
    getitem nan_target_table "label" = Ok target ∧
    s_values target = [NaN; Str "a"] ∧
    py_getitem [NaN; Str "a"] 0 = Ok NaN ∧
    py_getitem [NaN; Str "a"] (-1) = Ok (Str "a").
Proof. eexists _, _. by vm_compute. Qed.

(** * Further properties *)

(** ** The encoder: errors, codes and the feature matrix *)

Lemma filter_label_elem_of (data : DataFrame) (name : string) :
  name ∈ column_names data ↔
  filter (λ c, c.1 = name) (columns data) ≠ [].
Proof.
  rewrite filter_nil_Forall. split.
  - intros ([n c] & -> & Hin)%list_elem_of_fmap Hall.
    rewrite Forall_forall in Hall. by apply (Hall _ Hin).
  - intros Hnot. destruct (decide (name ∈ column_names data)) as [|Hout];
      [done|].
    exfalso. apply Hnot, Forall_forall. intros [n c] Hin Hn. simpl in Hn.
    subst n. apply Hout, list_elem_of_fmap. by exists (name, c).
Qed.

Ltac settle :=
  repeat split; intros;
  repeat match goal with
         | H : _ ∧ _ |- _ => destruct H
         | H : _ ∨ _ |- _ => destruct H
         | H : ∃ _, _ |- _ => destruct H
         end;
  try done; try lia; try tauto; try (by eexists).

(** X1.  How [encode_data] ends, by the number [k] of columns labelled as
    the target and by whether there is a column to make features of.  It
    raises a KeyError exactly when [k = 0] and a ValueError exactly when the
    target is there but nothing else is; both come from the first statement
    and leave the table as it was.  It raises an AttributeError exactly when
    there is a feature column and the label is carried by several columns;
    the table has then been assigned to.  It returns exactly when there is a
    feature column and one column carries the label. *)
Theorem encode_data_raises_iff (data : DataFrame) (targetcol : string) :
  let k := length (filter (λ c, c.1 = targetcol) (columns data)) in
  let run := encode_data data targetcol in
  (targetcol ∈ column_names data ↔ (0 < k)%nat) ∧
  (run.1 = Raise KeyError ↔ k = 0%nat) ∧
  (run.1 = Raise ValueError ↔
   (0 < k)%nat ∧ ¬ has_feature_column data targetcol) ∧
  (run.1 = Raise AttributeError ↔
   (1 < k)%nat ∧ has_feature_column data targetcol) ∧
  ((∃ encoded, run.1 = Ok encoded) ↔
   k = 1%nat ∧ has_feature_column data targetcol) ∧
  (run.1 = Raise KeyError ∨ run.1 = Raise ValueError → run.2 = data) ∧
  (run.1 = Raise AttributeError →
   run.2 = setitem_astype_object data targetcol).
Proof.
  intros k run.
  assert (targetcol ∈ column_names data ↔ (0 < k)%nat) as Hk.
  { rewrite filter_label_elem_of. unfold k.
    destruct (filter _ (columns data)); simpl; split; (done || lia). }
  split; [done|]. unfold run. rewrite encode_data_unfold. unfold getitem.
  destruct (decide (targetcol ∈ column_names data)) as [Hin|Hout].
  - apply Hk in Hin. clear Hk.
    destruct (decide (has_feature_column data targetcol)) as [Hf|Hf].
    + cbv zeta. unfold k in *. clear k.
      destruct (filter _ (columns data)) as [|c [|c' l]]; simpl in *; settle.
    + simpl. settle.
  - assert (k = 0%nat) as Hz.
    { destruct (decide (0 < k)%nat) as [Hpos|]; [by apply Hk in Hpos|lia]. }
    clear Hk. simpl. settle.
Qed.

Lemma factorize_loop_prefix (u l : list cell) :
  u `prefix_of` (factorize_loop u l).2.
Proof.
  revert u. induction l as [|x l IH]; intros u; [done|].
  destruct x as [|z|s]; simpl.
  - specialize (IH u). by destruct (factorize_loop u l).
  - destruct (position_of (Num z) u).
    + specialize (IH u). by destruct (factorize_loop u l).
    + specialize (IH (u ++ [Num z])).
      destruct (factorize_loop (u ++ [Num z]) l). simpl in *.
      etrans; [|exact IH]. by apply prefix_app_r.
  - destruct (position_of (Str s) u).
    + specialize (IH u). by destruct (factorize_loop u l).
    + specialize (IH (u ++ [Str s])).
      destruct (factorize_loop (u ++ [Str s]) l). simpl in *.
      etrans; [|exact IH]. by apply prefix_app_r.
Qed.

Lemma factorize_loop_decodes (u l : list cell) :
  Forall2 (decodes (factorize_loop u l).2) (factorize_loop u l).1 l.
Proof.
  revert u. induction l as [|x l IH]; intros u; [constructor|].
  assert (∀ w (v : cell) (i : nat), w !! i = Some v →
            (factorize_loop w l).2 !! i = Some v) as Hkeep.
  { intros w v i Hi. destruct (factorize_loop_prefix w l) as [k ->].
    by apply lookup_app_l_Some. }
  destruct x as [|z|s]; simpl.
  - specialize (IH u). destruct (factorize_loop u l) as [codes u'].
    simpl in *. constructor; [|done]. unfold decodes. by rewrite decide_True.
  - destruct (position_of (Num z) u) as [i|] eqn:Hp.
    + apply position_of_Some in Hp. specialize (IH u).
      specialize (Hkeep u _ _ Hp).
      destruct (factorize_loop u l) as [codes u']. simpl in *.
      constructor; [|done]. unfold decodes. rewrite decide_False by done.
      split; [lia|]. by rewrite Nat2Z.id.
    + specialize (IH (u ++ [Num z])).
      specialize (Hkeep (u ++ [Num z]) (Num z) (length u)
                    (list_lookup_middle u [] (Num z) _ eq_refl)).
      destruct (factorize_loop (u ++ [Num z]) l) as [codes u']. simpl in *.
      constructor; [|done]. unfold decodes. rewrite decide_False by done.
      split; [lia|]. by rewrite Nat2Z.id.
  - destruct (position_of (Str s) u) as [i|] eqn:Hp.
    + apply position_of_Some in Hp. specialize (IH u).
      specialize (Hkeep u _ _ Hp).
      destruct (factorize_loop u l) as [codes u']. simpl in *.
      constructor; [|done]. unfold decodes. rewrite decide_False by done.
      split; [lia|]. by rewrite Nat2Z.id.
    + specialize (IH (u ++ [Str s])).
      specialize (Hkeep (u ++ [Str s]) (Str s) (length u)
                    (list_lookup_middle u [] (Str s) _ eq_refl)).
      destruct (factorize_loop (u ++ [Str s]) l) as [codes u']. simpl in *.
      constructor; [|done]. unfold decodes. rewrite decide_False by done.
      split; [lia|]. by rewrite Nat2Z.id.
Qed.

Lemma position_of_elem_of (x : cell) (u : list cell) :
  x ∈ u → is_Some (position_of x u).
Proof.
  intros Hin. unfold position_of.
  destruct (list_find_elem_of (λ y, y = x) u x Hin eq_refl) as [[i y] ->].
  by eexists.
Qed.

(** The uniques of [factorize] are those of [unique] without the missing
    value. *)
Lemma factorize_loop_uniques (u l : list cell) :
  (factorize_loop (filter (λ v, v ≠ NaN) u) l).2 =
  filter (λ v, v ≠ NaN) (unique_loop u l).
Proof.
  revert u. induction l as [|x l IH]; intros u; [done|].
  assert (x ≠ NaN → x ∈ filter (λ v, v ≠ NaN) u ↔ x ∈ u) as Hmem.
  { intros Hx. rewrite list_elem_of_filter. tauto. }
  destruct x as [|z|s]; simpl.
  - rewrite <- IH. case_decide.
    + by destruct (factorize_loop _ l).
    + rewrite filter_app, filter_cons_False, filter_nil, app_nil_r by tauto.
      by destruct (factorize_loop _ l).
  - rewrite <- IH. case_decide as Hin.
    + apply Hmem, position_of_elem_of in Hin as [i ->]; [|done].
      by destruct (factorize_loop _ l).
    + destruct (position_of _ _) as [i|] eqn:Hp.
      * apply position_of_Some, list_elem_of_lookup_2, Hmem in Hp; done.
      * rewrite filter_app, filter_cons_True, filter_nil by done.
        by destruct (factorize_loop _ l).
  - rewrite <- IH. case_decide as Hin.
    + apply Hmem, position_of_elem_of in Hin as [i ->]; [|done].
      by destruct (factorize_loop _ l).
    + destruct (position_of _ _) as [i|] eqn:Hp.
      * apply position_of_Some, list_elem_of_lookup_2, Hmem in Hp; done.
      * rewrite filter_app, filter_cons_True, filter_nil by done.
        by destruct (factorize_loop _ l).
Qed.

Lemma encode_data_decodes_present (data : DataFrame) (targetcol : string)
    (X : DataFrame) (y : list Z) (features : list string)
    (target_labels : list cell) :
  (encode_data data targetcol).1 = Ok (X, y, features, target_labels) →
  ∃ target,
    getitem data targetcol = Ok target ∧
    NoDup target_labels ∧
    Forall2 (decodes (filter (λ v, v ≠ NaN) target_labels))
      y (s_values target).
Proof.
  intros (target & Hcol & _ & _ & -> & _ & ->)%encode_data_Ok.
  exists target. split_and!; [done| |].
  - apply unique_loop_NoDup, NoDup_nil_2.
  - unfold unique, factorize. simpl.
    rewrite <- (factorize_loop_uniques [] (s_values target)).
    apply factorize_loop_decodes.
Qed.

(** X2.  Whenever [encode_data] returns, the labels are free of duplicates,
    every row with a missing target value has the code -1, and every other
    row has a non-negative code that is the position of the row's value
    among the labels once the missing value is taken out of them. *)
Theorem encode_data_decodes (data : DataFrame) (targetcol : string)
    (X : DataFrame) (y : list Z) (features : list string)
    (target_labels : list cell) :
  (encode_data data targetcol).1 = Ok (X, y, features, target_labels) →
  ∃ target,
    getitem data targetcol = Ok target ∧
    NoDup target_labels ∧
    Forall2 (decodes (filter (λ v, v ≠ NaN) target_labels))
      y (s_values target).
Proof. apply encode_data_decodes_present. Qed.

Lemma decodes_inj (uniques : list cell) (c1 c2 : Z) (v1 v2 : cell) :
  NoDup uniques → decodes uniques c1 v1 → decodes uniques c2 v2 →
  c1 = c2 ↔ v1 = v2.
Proof.
  unfold decodes. intros Hnd H1 H2.
  destruct (decide (v1 = NaN)) as [->|Hv1], (decide (v2 = NaN)) as [->|Hv2].
  - by subst.
  - split; [lia|congruence].
  - split; [lia|congruence].
  - destruct H1 as [Hc1 Hl1], H2 as [Hc2 Hl2]. split.
    + intros ->. congruence.
    + intros ->. assert (Z.to_nat c1 = Z.to_nat c2); [|lia].
      by eapply NoDup_lookup.
Qed.

(** X3.  Two rows get the same code exactly when they have the same target
    value (two missing values counting as the same). *)
Theorem encode_data_same_code (data : DataFrame) (targetcol : string)
    (X : DataFrame) (y : list Z) (features : list string)
    (target_labels : list cell) (target : Series) :
  (encode_data data targetcol).1 = Ok (X, y, features, target_labels) →
  getitem data targetcol = Ok target →
  ∀ i j ci cj vi vj,
    y !! i = Some ci → y !! j = Some cj →
    s_values target !! i = Some vi → s_values target !! j = Some vj →
    ci = cj ↔ vi = vj.
Proof.
  intros Hrun Hcol i j ci cj vi vj Hci Hcj Hvi Hvj.
  destruct (encode_data_decodes_present _ _ _ _ _ _ Hrun)
    as (target' & Hcol' & Hnd & Hdec).
  rewrite Hcol in Hcol'. injection Hcol' as <-.
  eapply (decodes_inj (filter (λ v, v ≠ NaN) target_labels)).
  - by apply NoDup_filter.
  - eapply (Forall2_lookup_lr _ _ _ i); eauto.
  - eapply (Forall2_lookup_lr _ _ _ j); eauto.
Qed.

(** X4.  Encoding a second time, on the table as the first call left it,
    returns the same result and leaves the table as it is. *)
Theorem encode_data_again (data : DataFrame) (targetcol : string) :
  encode_data (encode_data data targetcol).2 targetcol =
  encode_data data targetcol.
Proof.
  rewrite (encode_data_table data targetcol).
  destruct (decide (targetcol ∈ column_names data ∧
                    has_feature_column data targetcol)) as [[Hin Hf]|]; [|done].
  rewrite !encode_data_unfold.
  rewrite setitem_astype_object_names.
  rewrite !decide_True by done.
  rewrite (decide_True (P:=has_feature_column _ _))
    by (by apply has_feature_column_retyped).
  cbv zeta. rewrite getitem_setitem_astype_object.
  rewrite setitem_astype_object_again.
  change (columns (setitem_astype_object data targetcol))
    with ((λ c : string * Series,
             if decide (c.1 = targetcol) then (c.1, astype_object c.2) else c)
          <$> columns data).
  rewrite filter_others_retyped.
  change (index (setitem_astype_object data targetcol)) with (index data).
  rewrite !decide_True by done.
  by destruct (getitem data targetcol).
Qed.

(** X5.  The feature names returned are the column names of the feature
    matrix, and no column of the feature matrix is of object dtype or holds
    a missing value. *)
Theorem encode_data_features_numeric (data : DataFrame) (targetcol : string)
    (X : DataFrame) (y : list Z) (features : list string)
    (target_labels : list cell) :
  (encode_data data targetcol).1 = Ok (X, y, features, target_labels) →
  features = column_names X ∧
  Forall (λ c, s_dtype c.2 ≠ Object ∧ NaN ∉ s_values c.2) (columns X).
Proof.
  intros (col & _ & _ & -> & _ & -> & _)%encode_data_Ok. split; [done|].
  simpl. rewrite Forall_fmap. apply Forall_forall. intros c Hc. simpl. split.
  - apply elem_of_app in Hc as [Hc|Hc].
    + apply list_elem_of_filter in Hc as [Hc _]. unfold is_object in Hc.
      by apply bool_decide_eq_false in Hc.
    + apply list_elem_of_bind in Hc as (d & Hc & _).
      unfold dummies_of in Hc. apply list_elem_of_fmap in Hc as (v & -> & _).
      done.
  - intros (v & Hv & _)%list_elem_of_fmap. by case_decide.
Qed.

Lemma insert_level_elem_of (x a : cell) (l : list cell) :
  x ∈ insert_level a l ↔ x = a ∨ x ∈ l.
Proof.
  induction l as [|b l IH]; simpl.
  - rewrite list_elem_of_singleton, elem_of_nil. tauto.
  - destruct (cell_leb a b).
    + by rewrite elem_of_cons.
    + rewrite !elem_of_cons, IH. tauto.
Qed.

Lemma sort_levels_elem_of (x : cell) (l : list cell) :
  x ∈ sort_levels l ↔ x ∈ l.
Proof.
  unfold sort_levels. induction l as [|a l IH]; [done|]. simpl.
  by rewrite insert_level_elem_of, elem_of_cons, IH.
Qed.

Lemma levels_elem_of (v : cell) (s : Series) :
  v ∈ levels s ↔ v ≠ NaN ∧ v ∈ s_values s.
Proof.
  unfold levels, unique.
  rewrite sort_levels_elem_of, list_elem_of_filter, unique_loop_elem_of,
    elem_of_nil.
  tauto.
Qed.

(** X6.  For every value that occurs in an object column other than the
    target, the feature matrix has the indicator column named after the
    column and the value: 1 in the rows that hold the value and 0 in all
    others, missing cells included. *)
Theorem encode_data_indicator (data : DataFrame) (targetcol : string)
    (X : DataFrame) (y : list Z) (features : list string)
    (target_labels : list cell) (name : string) (s : Series) (v : cell) :
  (encode_data data targetcol).1 = Ok (X, y, features, target_labels) →
  (name, s) ∈ columns data → name ≠ targetcol → s_dtype s = Object →
  v ∈ s_values s → v ≠ NaN →
  (name +:+ "_" +:+ cell_str v,
   mkSeries UInt8 ((λ c, if decide (c = v) then Num 1 else Num 0)
                     <$> s_values s))
  ∈ columns X.
Proof.
  intros (col & _ & _ & -> & _ & _ & _)%encode_data_Ok
    Hmem Hname Hobj Hv Hnan.
  simpl.
  apply list_elem_of_fmap.
  exists (name +:+ "_" +:+ cell_str v,
          mkSeries UInt8 ((λ c, if decide (c = v) then Num 1 else Num 0)
                            <$> s_values s)).
  split.
  - simpl. do 2 f_equal. rewrite <- list_fmap_compose.
    apply list_fmap_ext. intros i c _. simpl.
    destruct (decide (c = v)); by rewrite decide_False.
  - apply elem_of_app. right. apply list_elem_of_bind.
    exists (name, s). split.
    + unfold dummies_of. simpl. apply list_elem_of_fmap.
      exists v. split; [done|]. by apply levels_elem_of.
    + apply list_elem_of_filter. split.
      * unfold is_object. simpl. by apply bool_decide_eq_true.
      * by apply list_elem_of_filter.
Qed.

(** ** The filter: when it returns and what it keeps *)

Lemma length_select_by_le {A} (mask : list bool) (l : list A) :
  (length (select_by mask l) ≤ length l)%nat.
Proof.
  revert l. induction mask as [|b mask IH]; intros [|x l];
    [unfold select_by; simpl; lia..|].
  rewrite select_by_cons. specialize (IH l). destruct b; simpl; lia.
Qed.

Lemma select_by_differ (pred y : list Z) :
  Forall2 (λ p t, p ≠ t)
    (select_by (elementwise_ne pred y) pred)
    (select_by (elementwise_ne pred y) y).
Proof.
  revert y. induction pred as [|p pred IH]; intros [|t y]; try constructor.
  unfold elementwise_ne. simpl. rewrite !select_by_cons.
  case_bool_decide; [constructor; [done|]|]; apply IH.
Qed.

Lemma filter_misclassified_Ok_lengths (X_test : DataFrame)
    (y_test pred : list Z) (r : DataFrame * list Z * list Z) :
  filter_misclassified X_test y_test pred = Ok r →
  length y_test = shape0 X_test ∧ length pred = shape0 X_test.
Proof.
  intros Hrun. unfold filter_misclassified, ne_mask in Hrun.
  destruct (decide (length pred = length y_test)) as [Hlen|Hlen].
  - simpl in Hrun. unfold frame_mask in Hrun.
    case_decide as Hm; [|done].
    unfold elementwise_ne in Hm. rewrite length_zip_with in Hm. lia.
  - destruct pred as [|p [|p' pred]], y_test as [|t [|t' y_test]];
      simpl in *; try done; try lia.
    all: unfold frame_mask, array_mask in Hrun; simpl in Hrun.
    all: repeat (case_decide; simpl in *; try done; try lia).
Qed.

Lemma filter_misclassified_returns (X_test : DataFrame)
    (y_test pred : list Z) :
  length y_test = shape0 X_test → length pred = shape0 X_test →
  ∃ r, filter_misclassified X_test y_test pred = Ok r.
Proof. intros Hy Hpred. eexists. by apply filter_misclassified_eq. Qed.

(** X7.  The filter returns a result exactly when labels and predictions
    have as many entries as the table has rows; in every other case it
    raises. *)
Theorem filter_misclassified_returns_iff (X_test : DataFrame)
    (y_test pred : list Z) :
  (∃ r, filter_misclassified X_test y_test pred = Ok r) ↔
  length y_test = shape0 X_test ∧ length pred = shape0 X_test.
Proof.
  split.
  - intros [r Hrun]. by eapply filter_misclassified_Ok_lengths.
  - intros [Hy Hpred]. by apply filter_misclassified_returns.
Qed.

(** X8.  In what the filter returns every kept prediction differs from its
    label, labels and predictions have one entry per kept row, no more rows
    are kept than came in, and a table whose columns were as long as its
    index still is so. *)
Theorem filter_misclassified_kept (X_test : DataFrame) (y_test pred : list Z)
    (Xm : DataFrame) (ym pm : list Z) :
  filter_misclassified X_test y_test pred = Ok (Xm, ym, pm) →
  Forall2 (λ p t, p ≠ t) pm ym ∧
  length ym = shape0 Xm ∧ length pm = shape0 Xm ∧
  (shape0 Xm ≤ shape0 X_test)%nat ∧
  (Forall (λ c, length (s_values c.2) = shape0 X_test) (columns X_test) →
   Forall (λ c, length (s_values c.2) = shape0 Xm) (columns Xm)).
Proof.
  intros Hrun.
  destruct (filter_misclassified_Ok_lengths _ _ _ _ Hrun) as [Hy Hpred].
  rewrite filter_misclassified_eq in Hrun by done. simpl in Hrun.
  injection Hrun as <- <- <-.
  assert (length (elementwise_ne pred y_test) = shape0 X_test) as Hm.
  { unfold elementwise_ne. rewrite length_zip_with. lia. }
  unfold shape0 in *. simpl. split_and!.
  - apply select_by_differ.
  - apply length_select_by; lia.
  - apply length_select_by; lia.
  - apply length_select_by_le.
  - intros Hcols. rewrite Forall_fmap. eapply Forall_impl; [exact Hcols|].
    intros c Hc. cbv beta in Hc. simpl. apply length_select_by; lia.
Qed.

(** ** From the splitter to the filter *)

Lemma take_at_length {A} (l : list A) (idxs : list nat) (r : list A) :
  take_at l idxs = Ok r → length r = length idxs.
Proof.
  unfold take_at. revert r. induction idxs as [|i idxs IH]; intros r Hr.
  - by injection Hr as <-.
  - simpl in Hr. destruct (l !! i) as [x|]; [|done]. simpl in Hr.
    destruct (mapM _ idxs) as [k|]; [|done]. simpl in Hr.
    injection Hr as <-. simpl. f_equal. by apply IH.
Qed.

Lemma iloc_rows_length (X : DataFrame) (idxs : list nat) (X' : DataFrame) :
  iloc_rows X idxs = Ok X' →
  shape0 X' = length idxs ∧
  Forall (λ c, length (s_values c.2) = length idxs) (columns X').
Proof.
  unfold iloc_rows. intros Hrun.
  destruct (take_at (index X) idxs) as [idx|] eqn:Hidx; [|done].
  simpl in Hrun.
  destruct (mapM _ (columns X)) as [cols|] eqn:Hcols; [|done].
  injection Hrun as <-. unfold shape0. simpl.
  split; [by eapply take_at_length|].
  clear Hidx. revert cols Hcols.
  induction (columns X) as [|c cs IH]; intros cols Hcols.
  - injection Hcols as <-. constructor.
  - simpl in Hcols.
    destruct (take_at (s_values c.2) idxs) as [vs|] eqn:Hvs; [|done].
    simpl in Hcols. destruct (mapM _ cs) as [cols'|]; [|done].
    injection Hcols as <-. constructor; [|by apply IH].
    simpl. by eapply take_at_length.
Qed.

Section SplitThenFilter.

Variable permutation : nat → list nat.

(** X9.  Whatever the shuffle, the parts returned by [splitdata] are
    aligned: each label vector is as long as its table, every column is as
    long as its table's index, and the test part is accepted by the filter
    with any prediction vector of its length. *)
Theorem splitdata_parts_aligned (X : DataFrame) (y : list Z)
    (X_train X_test : DataFrame) (y_train y_test : list Z) :
  splitdata permutation X y = Ok (X_train, X_test, y_train, y_test) →
  length y_train = shape0 X_train ∧
  length y_test = shape0 X_test ∧
  Forall (λ c, length (s_values c.2) = shape0 X_train) (columns X_train) ∧
  Forall (λ c, length (s_values c.2) = shape0 X_test) (columns X_test) ∧
  ∀ pred, length pred = length y_test →
          ∃ r, filter_misclassified X_test y_test pred = Ok r.
Proof.
  unfold splitdata, train_test_split. intros Hrun.
  case_decide; [|done].
  destruct (validate_shuffle_split _) as [[n_train n_test]|]; [|done].
  simpl in Hrun.
  destruct (iloc_rows X (take n_train _)) as [Xtr|] eqn:Htr; [|done].
  simpl in Hrun.
  destruct (iloc_rows X (take n_test _)) as [Xte|] eqn:Hte; [|done].
  simpl in Hrun.
  destruct (take_at y (take n_train _)) as [ytr|] eqn:Hytr; [|done].
  simpl in Hrun.
  destruct (take_at y (take n_test _)) as [yte|] eqn:Hyte; [|done].
  injection Hrun as <- <- <- <-.
  apply iloc_rows_length in Htr as [Htr Htrc], Hte as [Hte Htec].
  apply take_at_length in Hytr, Hyte.
  assert (length yte = shape0 Xte) as Haligned by congruence.
  split_and!; [congruence|done|by rewrite Htr|by rewrite Hte|].
  intros pred Hpred. apply filter_misclassified_returns; congruence.
Qed.

End SplitThenFilter.

(** ** The local explanation block *)

Lemma py_getitem_Ok {A} (l : list A) (i : Z) (x : A) :
  py_getitem l i = Ok x →
  ∃ k, l !! k = Some x ∧
       Z.of_nat k = if decide (0 ≤ i) then i else Z.of_nat (length l) + i.
Proof.
  unfold py_getitem. intros Hget.
  destruct (decide (0 ≤ i < Z.of_nat (length l))) as [Hi|Hi].
  - destruct (l !! Z.to_nat i) as [x'|] eqn:Hl; [|done].
    injection Hget as ->. exists (Z.to_nat i). split; [done|].
    rewrite decide_True by lia. lia.
  - destruct (decide (- Z.of_nat (length l) ≤ i < 0)) as [Hneg|]; [|done].
    destruct (l !! Z.to_nat (Z.of_nat (length l) + i)) as [x'|] eqn:Hl;
      [|done].
    injection Hget as ->. eexists. split; [done|].
    rewrite decide_False by lia. lia.
Qed.

Lemma py_getitem_out_of_range {A} (l : list A) (i : Z) :
  ¬ (- Z.of_nat (length l) ≤ i < Z.of_nat (length l)) →
  py_getitem l i = Raise IndexError.
Proof.
  intros Hi. unfold py_getitem. by rewrite !decide_False by lia.
Qed.

Section LocalBlock.

Variable Booster : Type.
Variable tree_explainer : Booster → result TreeExplainer.
Variable show_prediction :
  Booster → list (string * cell) → option (list cell) → nat →
  option (list bool) → result string.

(** X12.  [show_local_interpretation] raises an IndexError, before anything
    is explained, when the slider value is not an index of the prediction
    vector or when the predicted code is not an index of the target
    labels. *)
Theorem show_local_interpretation_out_of_bounds (info_local : bool)
    (slider_idx : Z) (X_test : DataFrame) (y_test : list Z) (clf : Booster)
    (pred : list Z) (target_labels : list cell) (features : list string)
    (dim : model_dim) (dim_framework : framework) :
  ¬ (- Z.of_nat (length pred) ≤ slider_idx < Z.of_nat (length pred)) ∨
  (∃ pred_i, py_getitem pred slider_idx = Ok pred_i ∧
             ¬ (- Z.of_nat (length target_labels) ≤ pred_i
                < Z.of_nat (length target_labels))) →
  show_local_interpretation Booster tree_explainer show_prediction info_local
    slider_idx X_test y_test clf pred target_labels features dim dim_framework
  = Raise IndexError.
Proof.
  unfold show_local_interpretation. intros [Hidx|(pred_i & Hpred & Hcode)].
  - rewrite (py_getitem_out_of_range pred slider_idx Hidx). reflexivity.
  - rewrite Hpred. simpl.
    rewrite (py_getitem_out_of_range target_labels pred_i Hcode). reflexivity.
Qed.


End LocalBlock.

(** ** The target options of an upload *)

Lemma py_getitem_last {A} (front : list A) (x : A) :
  py_getitem (front ++ [x]) (-1) = Ok x.
Proof.
  unfold py_getitem. rewrite length_app. cbv zeta. simpl length.
  rewrite decide_False by lia. rewrite decide_True by lia.
  replace (Z.to_nat (Z.of_nat (length front + 1) + -1)) with (length front)
    by lia.
  by rewrite list_lookup_middle.
Qed.

Lemma take_all_but_last {A} (front : list A) (x : A) :
  take (length (front ++ [x]) - 1) (front ++ [x]) = front.
Proof.
  rewrite length_app. simpl. rewrite Nat.add_sub. apply take_app_length.
Qed.

(** X14.  The options offered for the target of an upload are the columns of
    the table, the last one first, so the default choice is the last column;
    a table without columns raises an IndexError.  With two columns or more,
    under distinct names (as [read_csv] makes them), [encode_data] returns
    for whichever option is chosen; with a single column its one option is
    refused with a ValueError. *)
Theorem col_arranged_options (df : DataFrame) :
  (column_names df = [] → col_arranged df = Raise IndexError) ∧
  ∀ options,
    col_arranged df = Ok options →
    options ≡ₚ column_names df ∧
    head options = last (column_names df) ∧
    ∀ target_col,
      target_col ∈ options →
      (NoDup (column_names df) → (2 ≤ length (column_names df))%nat →
       ∃ encoded, (encode_data df target_col).1 = Ok encoded) ∧
      (length (column_names df) = 1%nat →
       encode_data df target_col = (Raise ValueError, df)).
Proof.
  unfold col_arranged. split.
  - intros ->. reflexivity.
  - intros options Hrun.
    destruct (decide (column_names df = [])) as [Hnil|Hsome].
    { rewrite Hnil in Hrun. done. }
    destruct (exists_last Hsome) as (front & n & Hnames).
    rewrite Hnames in Hrun. rewrite py_getitem_last in Hrun. simpl in Hrun.
    rewrite take_all_but_last in Hrun. injection Hrun as <-.
    rewrite Hnames. split_and!.
    + by rewrite (Permutation_app_comm front [n]).
    + simpl. by rewrite last_snoc.
    + intros t Ht.
      assert (t ∈ column_names df) as Hin.
      { rewrite Hnames. apply elem_of_app.
        apply elem_of_cons in Ht as [->|Ht]; [right; by left|by left]. }
      rewrite <- Hnames. split.
      * intros Hnd Hlen.
        destruct (getitem_present df t Hnd Hin) as (col & Hcol & _).
        assert (∃ other, other ∈ column_names df ∧ other ≠ t)
          as (other & Hother & Hne).
        { destruct (column_names df) as [|a [|b l]] eqn:Hl;
            [simpl in Hlen; lia..|].
          apply NoDup_cons in Hnd as [Hab _].
          destruct (decide (a = t)) as [->|].
          - exists b. split; [right; left|]. intros ->. apply Hab. left.
          - exists a. split; [left|done]. }
        rewrite (encode_data_eq df t col Hcol)
          by (by eapply has_feature_column_other).
        by eexists.
      * intros Hlen. apply encode_data_no_features; [done|].
        unfold has_feature_column. rewrite Exists_exists.
        intros ([n' c] & Hc & Hn'). simpl in Hn'.
        assert (n' ∈ column_names df) as Hn'in
          by (apply list_elem_of_fmap; by exists (n', c)).
        destruct (column_names df) as [|a [|b l]]; [done| |done].
        apply list_elem_of_singleton in Hin, Hn'in. congruence.
Qed.

(** ** The confusion matrix *)

Lemma filter_none {A} (P : A → Prop) `{!∀ x, Decision (P x)} (l : list A) :
  (∀ x, x ∈ l → ¬ P x) → filter P l = [].
Proof.
  induction l as [|x l IH]; intros Hnone; [done|].
  rewrite filter_cons_False by (apply Hnone; left).
  apply IH. intros y Hy. apply Hnone. by right.
Qed.

Lemma filter_all {A} (P : A → Prop) `{!∀ x, Decision (P x)} (l : list A) :
  (∀ x, x ∈ l → P x) → filter P l = l.
Proof.
  induction l as [|x l IH]; intros Hall; [done|].
  rewrite filter_cons_True by (apply Hall; left).
  f_equal. apply IH. intros y Hy. apply Hall. by right.
Qed.

Lemma length_filter_key_cons {A} (key : A → Z) (a : Z) (labels : list Z)
    (L : list A) :
  a ∉ labels →
  length (filter (λ x, key x ∈ a :: labels) L) =
  (length (filter (λ x, key x = a) L) +
   length (filter (λ x, key x ∈ labels) L))%nat.
Proof.
  intros Ha. induction L as [|x L IH]; [done|].
  rewrite !filter_cons.
  destruct (decide (key x = a)) as [Hx|Hx].
  - rewrite decide_True by (rewrite Hx; left).
    rewrite decide_False by (by rewrite Hx). simpl. lia.
  - destruct (decide (key x ∈ labels)) as [Hin|Hout].
    + rewrite decide_True by (by right). simpl. lia.
    + rewrite decide_False; [done|].
      intros [?|?]%elem_of_cons; done.
Qed.

(** Counting by key over a duplicate-free list of keys counts every element
    whose key is listed once. *)
Lemma sum_count_by_key {A} (key : A → Z) (labels : list Z) (L : list A) :
  NoDup labels →
  sum_list ((λ a, length (filter (λ x, key x = a) L)) <$> labels) =
  length (filter (λ x, key x ∈ labels) L).
Proof.
  induction 1 as [|a labels Ha Hnd IH].
  - rewrite filter_none; [done|]. intros x _. apply not_elem_of_nil.
  - rewrite fmap_cons. simpl. by rewrite IH, length_filter_key_cons.
Qed.

Lemma length_filter_complement {A} (P : A → Prop) `{!∀ x, Decision (P x)}
    (l : list A) :
  (length (filter P l) + length (filter (λ x, ¬ P x) l) = length l)%nat.
Proof.
  rewrite <- length_app. by rewrite filter_app_complement.
Qed.

Lemma length_filter_zip_snd {A B} (P : B → Prop) `{!∀ x, Decision (P x)}
    (a : list A) (b : list B) :
  length a = length b →
  length (filter (λ x, P x.2) (zip a b)) = length (filter P b).
Proof.
  revert b. induction a as [|x a IH]; intros [|y b] Hlen; simplify_eq/=;
    [done|].
  rewrite !filter_cons. simpl. specialize (IH b Hlen).
  destruct (decide (P y)); simpl; lia.
Qed.

Lemma elem_of_zip_fst {A B} (a : list A) (b : list B) (x : A * B) :
  x ∈ zip a b → x.1 ∈ a.
Proof. destruct x. apply elem_of_zip_l. Qed.

Lemma length_mismatches (y pred : list Z) :
  length pred = length y →
  length (filter (λ x : Z * Z, ¬ x.1 = x.2) (zip y pred)) =
  length (misclassified_positions y pred).
Proof.
  intros Hlen.
  rewrite <- (mask_positions y pred Hlen).
  rewrite <- (length_select_by_positions (elementwise_ne pred y) y)
    by (unfold elementwise_ne; rewrite length_zip_with; lia).
  revert pred Hlen. induction y as [|t y IH]; intros [|p pred] Hlen;
    simplify_eq/=; [done|].
  unfold elementwise_ne. simpl. rewrite select_by_cons, filter_cons. simpl.
  specialize (IH pred Hlen). unfold elementwise_ne in IH.
  case_bool_decide; case_decide; simpl; try lia; congruence.
Qed.

Lemma trace_of_counts (y_true y_pred labels : list Z) :
  trace ((λ a, (λ b, count_pairs y_true y_pred a b) <$> labels) <$> labels) =
  sum_list ((λ a, count_pairs y_true y_pred a a) <$> labels).
Proof.
  unfold trace. rewrite imap_fmap. f_equal.
  rewrite <- (imap_const (λ a, count_pairs y_true y_pred a a)).
  apply imap_ext. intros i a Hi. simpl.
  by rewrite list_lookup_fmap, Hi.
Qed.

Lemma total_of_counts (y_true y_pred labels : list Z) :
  total ((λ a, (λ b, count_pairs y_true y_pred a b) <$> labels) <$> labels) =
  sum_list ((λ a, sum_list ((λ b, count_pairs y_true y_pred a b) <$> labels))
            <$> labels).
Proof. unfold total. by rewrite <- list_fmap_compose. Qed.

Section PerfMetricsProperties.

Variable set_list : list Z → list Z.
Variable classification_report :
  list Z → list Z → result (list (string * list Q)).
Hypothesis set_list_NoDup : ∀ y, NoDup (set_list y).
Hypothesis set_list_elem_of : ∀ y v, v ∈ set_list y ↔ v ∈ y.

Lemma length_set_list (y : list Z) : length (set_list y) = n_classes y.
Proof.
  unfold n_classes.
  rewrite <- (size_list_to_set (C:=gset Z) (set_list y)) by done.
  f_equal. apply set_eq. intros v.
  by rewrite !elem_of_list_to_set, set_list_elem_of.
Qed.

Lemma diagonal_counts (y pred : list Z) :
  sum_list ((λ a, count_pairs y pred a a) <$> set_list y) =
  length (filter (λ x : Z * Z, x.1 = x.2) (zip y pred)).
Proof.
  transitivity
    (sum_list ((λ a, length (filter (λ x : Z * Z, x.1 = a)
                               (filter (λ x : Z * Z, x.1 = x.2) (zip y pred))))
               <$> set_list y)).
  - f_equal. apply list_fmap_ext. intros _ a _. unfold count_pairs.
    rewrite list_filter_filter. f_equal. apply list_filter_iff.
    intros [t p]. simpl. split; [intros [-> ->]|intros [-> <-]]; done.
  - rewrite (sum_count_by_key fst) by done. f_equal.
    apply filter_all. intros x [_ Hx]%list_elem_of_filter.
    apply set_list_elem_of. by eapply elem_of_zip_fst.
Qed.

Lemma all_counts (y pred : list Z) :
  length y = length pred →
  sum_list ((λ a, sum_list ((λ b, count_pairs y pred a b) <$> set_list y))
            <$> set_list y) =
  length (filter (λ p, p ∈ y) pred).
Proof.
  intros Hlen.
  transitivity
    (sum_list ((λ a, length (filter (λ x : Z * Z, x.1 = a)
                               (filter (λ x : Z * Z, x.2 ∈ set_list y)
                                  (zip y pred))))
               <$> set_list y)).
  - f_equal. apply list_fmap_ext. intros _ a _. simpl.
    rewrite list_filter_filter.
    transitivity
      (sum_list ((λ b, length (filter (λ x : Z * Z, x.2 = b)
                                 (filter (λ x : Z * Z, x.1 = a) (zip y pred))))
                 <$> set_list y)).
    + f_equal. apply list_fmap_ext. intros _ b _. unfold count_pairs.
      rewrite list_filter_filter. f_equal. apply list_filter_iff.
      intros [t p]. simpl. tauto.
    + rewrite (sum_count_by_key snd) by done.
      rewrite list_filter_filter. f_equal. apply list_filter_iff.
      intros [t p]. simpl. tauto.
  - rewrite (sum_count_by_key fst) by done.
    rewrite filter_all.
    + rewrite <- (length_filter_zip_snd (λ p, p ∈ y) y pred Hlen). f_equal.
      apply list_filter_iff. intros [t p]. simpl. apply set_list_elem_of.
    + intros x [_ Hx]%list_elem_of_filter.
      apply set_list_elem_of. by eapply elem_of_zip_fst.
Qed.

(** X13.  When the report can be computed for a non-empty evaluation set,
    [show_perf_metrics] shows a square confusion matrix with one row and one
    column per true class.  Its diagonal counts the rows the
    misclassification filter would drop, and its entries add up to the
    number of predictions that are a true class: a prediction of a class
    absent from [y_test] is not counted anywhere. *)
Theorem show_perf_metrics_matrix (y_test pred : list Z)
    (report : list (string * list Q)) :
  classification_report y_test pred = Ok report →
  length y_test = length pred → y_test ≠ [] →
  ∃ shown matrix,
    show_perf_metrics set_list classification_report y_test pred
    = Ok [SidebarDataframe shown; SidebarHeatmap matrix] ∧
    length matrix = n_classes y_test ∧
    Forall (λ row, length row = n_classes y_test) matrix ∧
    (trace matrix + length (misclassified_positions y_test pred)
     = length y_test)%nat ∧
    total matrix = length (filter (λ p, p ∈ y_test) pred).
Proof.
  intros Hreport Hlen Hsome. unfold show_perf_metrics. rewrite Hreport.
  simpl. unfold confusion_matrix. rewrite decide_True by done.
  rewrite decide_True.
  - simpl. eexists _, _. split; [done|]. split_and!.
    + by rewrite length_fmap, length_set_list.
    + apply Forall_fmap, Forall_forall. intros a _. simpl.
      by rewrite length_fmap, length_set_list.
    + rewrite trace_of_counts, diagonal_counts.
      rewrite <- (length_mismatches y_test pred) by done.
      rewrite length_filter_complement.
      rewrite length_zip_with_l_eq; done.
    + rewrite total_of_counts. by apply all_counts.
  - destruct y_test as [|t y_test]; [done|].
    apply list.Exists_exists. exists t. split; [|left].
    apply set_list_elem_of. left.
Qed.

End PerfMetricsProperties.

(** ** The rendered prediction *)

Lemma remove_newlines_chars (s : string) :
  String.list_ascii_of_string (remove_newlines s) =
  filter (λ c, c ≠ Ascii.ascii_of_nat 10) (String.list_ascii_of_string s).
Proof.
  induction s as [|c s IH]; [done|]. simpl. rewrite filter_cons.
  destruct (decide (c = Ascii.ascii_of_nat 10)) as [->|Hc].
  - rewrite decide_False by tauto. exact IH.
  - rewrite decide_True by done. simpl. by rewrite IH.
Qed.

Section RenderedPrediction.

Variable Booster : Type.
Variable show_prediction :
  Booster → list (string * cell) → option (list cell) → nat →
  option (list bool) → result string.

(** X15.  The markdown shown by the eli5 local explanation is the library's
    rendering of the selected row with every newline removed and nothing
    else changed; target names and targets are handed to the library for all
    models but XGBoost. *)
Theorem show_local_interpretation_eli5_one_line (info_local : bool)
    (dataset : DataFrame) (clf : Booster) (pred : list Z)
    (target_labels : list cell) (features : list string) (dim : model_dim)
    (slider_idx : Z) (ws : list widget) :
  show_local_interpretation_eli5 Booster show_prediction info_local dataset
    clf pred target_labels features dim slider_idx = Ok ws →
  ∃ doc rendered html,
    iloc_row dataset slider_idx = Ok doc ∧
    show_prediction clf doc
      (match dim with XGBoost => None | _ => Some target_labels end) 5%nat
      (match dim with XGBoost => None | _ => Some [true] end) = Ok rendered ∧
    ws = (if info_local then [StInfo info_local_eli5] else []) ++
         [StMarkdown html] ∧
    String.list_ascii_of_string html =
    filter (λ c, c ≠ Ascii.ascii_of_nat 10) (String.list_ascii_of_string rendered).
Proof.
  unfold show_local_interpretation_eli5. intros Hrun.
  destruct (iloc_row dataset slider_idx) as [doc|]; [|done]. simpl in Hrun.
  exists doc.
  destruct dim; simpl in *;
    (destruct (show_prediction _ _ _ _ _) as [rendered|] eqn:Hshow; [|done]);
    simpl in Hrun; injection Hrun as <-;
    exists rendered, (remove_newlines rendered);
    split_and!; try done; apply remove_newlines_chars.
Qed.

End RenderedPrediction.

(** ** From the encoder to the splitter *)

Section EncodeThenSplit.

Variable permutation : nat → list nat.
Hypothesis permutation_shuffles : ∀ n, permutation n ≡ₚ seq 0 n.

Lemma splitdata_returns (X : DataFrame) (y : list Z) :
  Forall (λ c, length (s_values c.2) = shape0 X) (columns X) →
  length y = shape0 X → (2 ≤ shape0 X)%nat →
  ∃ parts, splitdata permutation X y = Ok parts.
Proof.
  intros Hcols Hy Hn. unfold splitdata, train_test_split.
  rewrite decide_True by done.
  destruct (validate_shuffle_split_ok (shape0 X) Hn)
    as (n_train & n_test & -> & _). simpl.
  assert (Forall (λ i, (i < shape0 X)%nat) (permutation (shape0 X)))
    as Hbound.
  { rewrite permutation_shuffles. apply Forall_forall.
    intros i [_ Hi]%elem_of_seq. lia. }
  assert (∀ k, Forall (λ i, (i < shape0 X)%nat)
                 (take k (permutation (shape0 X)))) as Htake
    by (intros k; by apply Forall_take).
  assert (Forall (λ i, (i < shape0 X)%nat)
            (take n_train (drop n_test (permutation (shape0 X))))) as Htrain
    by (by apply Forall_take, Forall_drop).
  destruct (iloc_rows_ok X _ Hcols Htrain) as (X_train & -> & _).
  destruct (iloc_rows_ok X _ Hcols (Htake n_test)) as (X_test & -> & _).
  simpl.
  destruct (take_at_ok y (take n_train (drop n_test
                                          (permutation (shape0 X)))))
    as (y_train & -> & _); [by rewrite Hy|].
  destruct (take_at_ok y (take n_test (permutation (shape0 X))))
    as (y_test & -> & _); [by rewrite Hy|].
  simpl. by eexists.
Qed.

(** X16.  A well-formed table with a valid target and at least one other
    column goes from the encoder to the splitter without an error when it
    has at least 2 rows, and is refused by the splitter with a ValueError
    when it has fewer. *)
Theorem encode_then_split (data : DataFrame) (targetcol other : string) :
  wf_frame data → targetcol ∈ column_names data →
  other ∈ column_names data → other ≠ targetcol →
  ∃ X y features target_labels,
    (encode_data data targetcol).1 = Ok (X, y, features, target_labels) ∧
    ((2 ≤ shape0 data)%nat → ∃ parts, splitdata permutation X y = Ok parts) ∧
    ((shape0 data < 2)%nat → splitdata permutation X y = Raise ValueError).
Proof.
  intros [Hrows Hnd] Hin Hother Hne.
  destruct (getitem_present data targetcol Hnd Hin) as (col & Hcol & Hmem).
  rewrite (encode_data_eq data targetcol col Hcol)
    by (by eapply has_feature_column_other).
  simpl. eexists _, _, _, _. split; [done|].
  set (X := fillna0 _).
  assert (shape0 X = shape0 data) as HX by done.
  assert (length (factorize (astype_object col)).1 = shape0 X) as Hy.
  { unfold factorize. rewrite factorize_loop_length. simpl.
    rewrite Forall_forall in Hrows. by apply (Hrows _ Hmem). }
  split.
  - intros Hn. apply splitdata_returns; [|done|by rewrite HX].
    apply get_dummies_rows. simpl. apply Forall_forall.
    intros c [_ Hc]%list_elem_of_filter.
    rewrite Forall_forall in Hrows. by apply Hrows.
  - intros Hn. unfold splitdata, train_test_split.
    rewrite decide_True by done.
    rewrite validate_shuffle_split_small by (by rewrite HX). done.
Qed.

End EncodeThenSplit.

(** ** The permutation table row by row *)

Section PermutationTable.

Variable Booster : Type.
Variable argsort_k_largest : list Q → nat → list nat.
Variable permutation_importance :
  Booster → nat → Z → DataFrame → list Z → result (list (Q * Q)).

(** X17.  Whatever positions eli5 picks, every row of the permutation table
    handed to the chart is a column of [X_train] with the importance and the
    deviation that were computed for that very column, each rounded to two
    decimals; and the chart has these rows and no others. *)
Theorem show_global_interpretation_eli5_rows (X_train : DataFrame)
    (y_train : list Z) (features : list string) (clf : Booster)
    (dim : model_dim) (ws : list widget) :
  show_global_interpretation_eli5 Booster argsort_k_largest
    permutation_importance X_train y_train features clf dim
  = Ok ws →
  ∃ perm data bars,
    permutation_importance clf 2%nat 1 X_train y_train = Ok perm ∧
    ws = [AltBarChart data bars] ∧ bars ≡ₚ data ∧
    Forall (λ r, ∃ j w s,
              column_names X_train !! j = Some (feature r) ∧
              perm !! j = Some (w, s) ∧
              weight r = round2 w ∧ std r = round2 s) data.
Proof.
  unfold show_global_interpretation_eli5. intros Hrun.
  destruct (permutation_importance clf 2%nat 1 X_train y_train)
    as [perm|]; [|done].
  simpl in Hrun.
  destruct (explain_weights_df _ perm _ 5) as [rows|] eqn:Hrows; [|done].
  simpl in Hrun. injection Hrun as <-. eexists perm, _, _.
  split_and!; [done..|apply merge_sort_Permutation|].
  apply explain_weights_df_rows in Hrows.
  apply Forall_fmap, Forall_forall. intros r Hr.
  apply list_elem_of_lookup_1 in Hr as [i Hi].
  destruct (Forall2_lookup_r _ _ _ _ _ Hrows Hi) as (j & _ & Hname & Himp).
  exists j, (weight r), (std r). by simpl.
Qed.

End PermutationTable.

(** ** Instances of the further properties on the sample data *)

Lemma encode_data_decodes_witness :
  ∃ X y features target_labels target,
    (encode_data gaps_table "kind").1 = Ok (X, y, features, target_labels) ∧
    getitem gaps_table "kind" = Ok target ∧
    NoDup target_labels ∧
    Forall2 (decodes (filter (λ v, v ≠ NaN) target_labels))
      y (s_values target).
Proof.
  destruct (encode_data_decodes gaps_table "kind" _ _ _ _ eq_refl)
    as (target & Hcol & Hnd & Hdec).
  eexists _, _, _, _, target. split; [reflexivity|].
  split; [exact Hcol|]. split; [exact Hnd|exact Hdec].
Defined.

Lemma encode_data_same_code_witness :
  ∃ X y features target_labels target,
    (encode_data gaps_table "kind").1 = Ok (X, y, features, target_labels) ∧
    getitem gaps_table "kind" = Ok target ∧
    y !! 0%nat = Some 0 ∧ y !! 3%nat = Some 0 ∧ y !! 2%nat = Some 1 ∧
    s_values target !! 0%nat = Some (Str "x") ∧
    s_values target !! 3%nat = Some (Str "x") ∧
    s_values target !! 2%nat = Some (Str "y") ∧
    ((0 : Z) = 0 ↔ Str "x" = Str "x") ∧ ((0 : Z) = 1 ↔ Str "x" = Str "y").
Proof.
  eexists _, _, _, _, _. split_and!; [reflexivity..| |].
  - apply (encode_data_same_code gaps_table "kind" _ _ _ _ _ eq_refl eq_refl
             0%nat 3%nat); reflexivity.
  - apply (encode_data_same_code gaps_table "kind" _ _ _ _ _ eq_refl eq_refl
             0%nat 2%nat); reflexivity.
Defined.

Lemma encode_data_features_numeric_witness :
  ∃ X y features target_labels,
    (encode_data gaps_table "kind").1 = Ok (X, y, features, target_labels) ∧
    features = column_names X ∧
    Forall (λ c, s_dtype c.2 ≠ Object ∧ NaN ∉ s_values c.2) (columns X).
Proof.
  eexists _, _, _, _. split; [reflexivity|].
  apply (encode_data_features_numeric gaps_table "kind" _ _ _ _ eq_refl).
Defined.

Lemma encode_data_indicator_witness :
  ∃ X y features target_labels,
    (encode_data gaps_table "kind").1 = Ok (X, y, features, target_labels) ∧
    ("shade_pale", mkSeries UInt8 [Num 0; Num 0; Num 1; Num 0]) ∈ columns X.
Proof.
  eexists _, _, _, _. split; [reflexivity|].
  apply (encode_data_indicator gaps_table "kind" _ _ _ _ "shade"
           (mkSeries Object [Str "dark"; NaN; Str "pale"; Str "dark"])
           (Str "pale") eq_refl).
  - by apply (bool_decide_unpack _).
  - done.
  - done.
  - by apply (bool_decide_unpack _).
  - done.
Defined.

Lemma filter_misclassified_kept_witness :
  ∃ Xm ym pm,
    filter_misclassified sample_X_test sample_y_test sample_pred
    = Ok (Xm, ym, pm) ∧
    Forall2 (λ p t, p ≠ t) pm ym ∧
    length ym = shape0 Xm ∧ length pm = shape0 Xm.
Proof.
  eexists _, _, _. split; [reflexivity|].
  destruct (filter_misclassified_kept sample_X_test sample_y_test sample_pred
              _ _ _ eq_refl) as (Hne & Hy & Hp & _).
  by split_and!.
Defined.

Lemma splitdata_parts_aligned_witness :
  ∃ X_train X_test y_train y_test,
    splitdata backwards five_rows [0; 1; 0; 1; 1]
    = Ok (X_train, X_test, y_train, y_test) ∧
    length y_test = shape0 X_test ∧
    ∃ r, filter_misclassified X_test y_test [0] = Ok r.
Proof.
  eexists _, _, _, _. split; [reflexivity|].
  destruct (splitdata_parts_aligned backwards five_rows [0; 1; 0; 1; 1]
              _ _ _ _ eq_refl) as (_ & Hy & _ & _ & Hfilter).
  split; [exact Hy|]. by apply Hfilter.
Defined.


Lemma show_local_interpretation_out_of_bounds_witness :
  ¬ (- Z.of_nat (length sample_pred) ≤ 4
     < Z.of_nat (length sample_pred)) ∧
  show_local_interpretation unit sample_tree_explainer sample_show_prediction
    false 4 sample_X_test sample_y_test () sample_pred [Str "a"; Str "b"] []
    lightGBM SHAP
  = Raise IndexError.
Proof.
  assert (¬ (- Z.of_nat (length sample_pred) ≤ 4
             < Z.of_nat (length sample_pred))) as Hout by (simpl; lia).
  split; [exact Hout|].
  apply show_local_interpretation_out_of_bounds. by left.
Defined.

Lemma set_elements_NoDup (y : list Z) : NoDup (set_elements y).
Proof. unfold set_elements. apply NoDup_elements. Qed.

Lemma set_elements_elem_of (y : list Z) (v : Z) : v ∈ set_elements y ↔ v ∈ y.
Proof.
  unfold set_elements. by rewrite elem_of_elements, elem_of_list_to_set.
Qed.

Lemma show_perf_metrics_matrix_witness :
  (∀ y, NoDup (set_elements y)) ∧
  (∀ y v, v ∈ set_elements y ↔ v ∈ y) ∧
  length sample_y_test = length sample_pred ∧ sample_y_test ≠ [] ∧
  ∃ shown matrix,
    show_perf_metrics set_elements sample_report sample_y_test sample_pred
    = Ok [SidebarDataframe shown; SidebarHeatmap matrix] ∧
    length matrix = n_classes sample_y_test ∧
    (trace matrix + length (misclassified_positions sample_y_test sample_pred)
     = length sample_y_test)%nat.
Proof.
  split_and!;
    [apply set_elements_NoDup|apply set_elements_elem_of|reflexivity|done|].
  destruct (show_perf_metrics_matrix set_elements sample_report
              set_elements_NoDup set_elements_elem_of sample_y_test
              sample_pred _ eq_refl eq_refl)
    as (shown & matrix & Hrun & Hlen & _ & Htrace & _); [done|].
  by exists shown, matrix.
Defined.

Lemma show_local_interpretation_eli5_one_line_witness :
  ∃ ws html,
    show_local_interpretation_eli5 unit sample_show_prediction false
      sample_X_test () sample_pred [Str "a"; Str "b"] [] lightGBM 1 = Ok ws ∧
    ws = [StMarkdown html] ∧
    Ascii.ascii_of_nat 10 ∉ String.list_ascii_of_string html.
Proof.
  destruct (show_local_interpretation_eli5_one_line unit
              sample_show_prediction false sample_X_test () sample_pred
              [Str "a"; Str "b"] [] lightGBM 1 _ eq_refl)
    as (doc & rendered & html & _ & _ & Hws & Hchars).
  eexists _, html. split; [reflexivity|]. split; [exact Hws|].
  rewrite Hchars. intros [Hne _]%list_elem_of_filter. done.
Defined.

Lemma encode_then_split_witness :
  (∀ n, backwards n ≡ₚ seq 0 n) ∧ wf_frame sample_table ∧
  "species" ∈ column_names sample_table ∧
  "width" ∈ column_names sample_table ∧ "width" ≠ "species" ∧
  ∃ X y features target_labels,
    (encode_data sample_table "species").1
    = Ok (X, y, features, target_labels) ∧
    ∃ parts, splitdata backwards X y = Ok parts.
Proof.
  assert ("species" ∈ column_names sample_table) as Hin
    by (by apply (bool_decide_unpack _)).
  assert ("width" ∈ column_names sample_table) as Hother
    by (by apply (bool_decide_unpack _)).
  assert ("width" ≠ "species") as Hne by done.
  split_and!; [apply backwards_shuffles|apply wf_sample_table|exact Hin
              |exact Hother|exact Hne|].
  destruct (encode_then_split backwards backwards_shuffles sample_table
              "species" "width" wf_sample_table Hin Hother Hne)
    as (X & y & features & target_labels & Hrun & Hsplit & _).
  exists X, y, features, target_labels. split; [exact Hrun|].
  apply Hsplit. unfold shape0. simpl. lia.
Defined.

Lemma show_global_interpretation_eli5_rows_witness :
  ∃ ws perm data bars,
    show_global_interpretation_eli5 unit sample_argsort_k_largest
      sample_permutation_importance sample_X_test sample_y_test
      ["width"; "colour_red"] () randomforest
    = Ok ws ∧
    sample_permutation_importance () 2%nat 1 sample_X_test sample_y_test
    = Ok perm ∧
    ws = [AltBarChart data bars] ∧
    Forall (λ r, ∃ j w s,
              column_names sample_X_test !! j = Some (feature r) ∧
              perm !! j = Some (w, s) ∧
              weight r = round2 w ∧ std r = round2 s) data.
Proof.
  destruct (show_global_interpretation_eli5_rows unit
              sample_argsort_k_largest sample_permutation_importance
              sample_X_test sample_y_test ["width"; "colour_red"] ()
              randomforest _ eq_refl)
    as (perm & data & bars & Hperm & Hws & _ & Hrows).
  eexists _, perm, data, bars. split; [reflexivity|].
  split; [exact Hperm|]. split; [exact Hws|exact Hrows].
Defined.
